(** * Greybus operations: a shallow embedding of [operation.c]

    The development follows the source file top to bottom: the wire header,
    the pending-operation tree ([gb_operation_insert], [gb_operation_remove],
    [gb_operation_find]), completion and waiting, the request handlers, buffer
    and operation creation, the send path and the receive dispatcher
    [gb_connection_operation_recv].

    Kernel objects live in two stores keyed by address (operations and
    transport buffers); one connection is modelled.  What the kernel and the
    transport decide (allocation results, the identifier counter, the
    red-black rebalancing of [lib/rbtree.c], the numbering of protocols) is
    taken as a parameter, see [Externals]. *)

From stdpp Require Import gmap list sorting strings.
From Stdlib Require Import ZArith Lia.

Local Open Scope Z_scope.

(** ** Machine integers *)

Definition u8 (x : Z) : Z := x mod 256.
Definition u16 (x : Z) : Z := x mod 65536.
(** [size_t] of a 64-bit kernel. *)
Definition size_t (x : Z) : Z := x mod 2 ^ 64.

(** ** The operation message header *)

Definition GB_OPERATION_TYPE_RESPONSE : Z := 0x80.
Definition GB_OPERATION_MESSAGE_SIZE_MAX : Z := 4096.

(** [struct gb_operation_msg_hdr] is [__aligned(sizeof(u64))]: 5 bytes of
    fields and 3 of padding. *)
Definition sizeof_hdr : Z := 8.
Definition off_size : nat := 0.
Definition off_id : nat := 2.
Definition off_type : nat := 4.

(** [cpu_to_le16] of a value assigned to a [__le16] field: the value is cut
    to 16 bits and laid out low byte first. *)
Definition cpu_to_le16 (v : Z) : list Z := [u16 v mod 256; u16 v / 256].

Definition le16_to_cpu (lo hi : Z) : Z := u8 lo + 256 * u8 hi.

(** Field reads through a header pointer; [None] when the field lies outside
    the bytes the pointer refers to. *)
Definition le16_at (off : nat) (data : list Z) : option Z :=
  match data !! off, data !! S off with
  | Some lo, Some hi => Some (le16_to_cpu lo hi)
  | _, _ => None
  end.

Definition u8_at (off : nat) (data : list Z) : option Z :=
  u8 <$> data !! off.

Definition hdr_size (data : list Z) : option Z := le16_at off_size data.
Definition hdr_id (data : list Z) : option Z := le16_at off_id data.
Definition hdr_type (data : list Z) : option Z := u8_at off_type data.

(** A store of [bs] at byte offset [off]; [None] when it would run past the
    end of [buf]. *)
Definition store_bytes (off : nat) (bs buf : list Z) : option (list Z) :=
  if decide (off + length bs <= length buf)%nat
  then Some (take off buf ++ bs ++ drop (off + length bs) buf)
  else None.

(** ** Objects *)

Inductive gfp_t := GFP_KERNEL | GFP_ATOMIC.

Record gbuf := Gbuf {
  transfer_buffer : list Z;
  transfer_buffer_length : Z;
  actual_length : Z;
  status : Z;
  outbound : bool;
  context : nat;
}.

Record gb_operation := GbOperation {
  id : Z;
  request : option nat;
  response : option nat;
  callback : option nat;
  result : Z;
  completion : bool;
}.

(** ** The pending tree

    [struct rb_node] is embedded in the operation, so a node is named by the
    address of its operation ([rb_entry]). *)

Inductive rb_color := RB_RED | RB_BLACK.

Inductive rb_tree :=
| rb_nil
| rb_node (c : rb_color) (l : rb_tree) (a : nat) (r : rb_tree).

Fixpoint inorder (t : rb_tree) : list nat :=
  match t with
  | rb_nil => []
  | rb_node _ l a r => inorder l ++ a :: inorder r
  end.

Fixpoint height (t : rb_tree) : nat :=
  match t with
  | rb_nil => O
  | rb_node _ l _ r => S (Nat.max (height l) (height r))
  end.

Record gb_connection := GbConnection {
  protocol : Z;
  op_cycle : Z;
  pending : rb_tree;
  operations : list nat;
}.

(** ** What is observable from outside *)

Inductive event :=
| EvErr (msg : string)                  (* gb_connection_err *)
| EvWarn                                (* WARN_ON fired *)
| EvMemcpy (dst : nat) (cap n : Z)      (* memcpy of n bytes into buffer dst *)
| EvQueueWork (op : nat)                (* queue_work of op's recv_work *)
| EvCallback (cb op : nat)              (* operation->callback(operation) *)
| EvCompleteAll (op : nat)              (* complete_all(&operation->completion) *)
| EvHandler (op : nat)                  (* a request handler ran *)
| EvSubmit (g : option nat)             (* greybus_submit_gbuf *)
| EvKill (g : option nat)               (* greybus_kill_gbuf *)
| EvFinished (g : option nat).          (* greybus_gbuf_finished *)

Global Instance event_eq_dec : EqDecision event.
Proof. solve_decision. Defined.

Record world := World {
  conn : gb_connection;
  ops : gmap nat gb_operation;
  gbufs : gmap nat gbuf;
  allocs : list bool;
  log : list event;
}.

(** ** Running code: results, undefined behaviour, loops that do not end *)

(** Undefined behaviour: a null or dangling pointer is dereferenced, a
    write runs past the end of its destination, a read past the end of its
    source. *)
Inductive fault := BadPointer | DstOverrun | SrcOverrun.

(** A run returns [a] in state [w], stops in [w] on undefined behaviour, or
    is still in a loop when its fuel is spent. *)
Inductive outcome (A : Type) :=
| Ok (a : A) (w : world)
| Fault (f : fault) (w : world)
| Spin (w : world).
Arguments Ok {A} a w.
Arguments Fault {A} f w.
Arguments Spin {A} w.

Definition M (A : Type) : Type := world -> outcome A.

Definition ret {A} (a : A) : M A := fun w => Ok a w.

Definition bind {A B} (m : M A) (k : A -> M B) : M B :=
  fun w =>
    match m w with
    | Ok a w' => k a w'
    | Fault f w' => Fault f w'
    | Spin w' => Spin w'
    end.

Notation "'do' x <- m ; k" := (bind m (fun x => k))
  (at level 10, x name, m at level 100, k at level 200).
Notation "m ;; k" := (bind m (fun _ => k))
  (at level 100, k at level 200, right associativity).

Definition get : M world := fun w => Ok w w.
Definition put (w : world) : M unit := fun _ => Ok tt w.
Definition raise {A} (f : fault) : M A := fun w => Fault f w.

Definition emit (e : event) : M unit :=
  fun w => Ok tt (World (conn w) (ops w) (gbufs w) (allocs w) (log w ++ [e])).

Definition set_conn (c : gb_connection) : M unit :=
  fun w => Ok tt (World c (ops w) (gbufs w) (allocs w) (log w)).

Definition load_op (a : nat) : M gb_operation :=
  fun w => match ops w !! a with Some o => Ok o w | None => Fault BadPointer w end.

Definition store_op (a : nat) (o : gb_operation) : M unit :=
  fun w => Ok tt (World (conn w) (<[a := o]> (ops w)) (gbufs w) (allocs w) (log w)).

Definition load_gbuf (g : nat) : M gbuf :=
  fun w => match gbufs w !! g with Some b => Ok b w | None => Fault BadPointer w end.

Definition store_gbuf (g : nat) (b : gbuf) : M unit :=
  fun w => Ok tt (World (conn w) (ops w) (<[g := b]> (gbufs w)) (allocs w) (log w)).

(** A null pointer that the code dereferences without a test. *)
Definition deref {A} (p : option A) : M A :=
  match p with Some x => ret x | None => raise BadPointer end.

(** ** The kernel and the transport

    [rb_insert_color] and [rb_erase] are the kernel's red-black tree
    routines: they recolour and rotate, which keeps the in-order sequence of
    the nodes (minus the erased one, which must be in the tree).
    [gb_connection_operation_id] maps the
    connection's counter to the identifier handed out and the next counter.
    The [GREYBUS_PROTOCOL] numbers index the handler table; they and the
    [GB_OP] status codes come from headers outside this file. *)

Class Externals := {
  rb_insert_color : nat -> rb_tree -> rb_tree;
  rb_erase : nat -> rb_tree -> rb_tree;
  gb_connection_operation_id : Z -> Z * Z;
  GREYBUS_PROTOCOL_CONTROL : Z;
  GREYBUS_PROTOCOL_AP : Z;
  GREYBUS_PROTOCOL_GPIO : Z;
  GREYBUS_PROTOCOL_I2C : Z;
  GREYBUS_PROTOCOL_UART : Z;
  GREYBUS_PROTOCOL_HID : Z;
  GREYBUS_PROTOCOL_BATTERY : Z;
  GREYBUS_PROTOCOL_LED : Z;
  GREYBUS_PROTOCOL_VENDOR : Z;
  GB_OP_SUCCESS : Z;
  GB_OP_PROTOCOL_BAD : Z;
  rb_insert_color_inorder : forall a t,
    inorder (rb_insert_color a t) = inorder t;
  rb_erase_inorder : forall a t,
    NoDup (inorder t) -> a ∈ inorder t ->
    inorder (rb_erase a t) = filter (fun x => x <> a) (inorder t);
}.

(** ** gb_operation_insert, gb_operation_remove, gb_operation_find *)

(** [operation->id] read through [rb_entry] (0 at an address that holds no
    operation; the pending tree names live operations only). *)
Definition op_id (w : world) (a : nat) : Z :=
  match ops w !! a with Some o => id o | None => 0 end.

(** The descent loop of [gb_operation_insert] (while [link] points at a
    node) followed by [rb_link_node]: one unit of fuel per evaluation of the
    loop test, [None] when the fuel runs out.  When the identifiers are
    equal neither branch moves [link], and the next iteration starts from
    the same node.  (The loop also loads [other->request->transfer_buffer]
    into a variable it never reads; that load is left out.) *)
Fixpoint link_loop (fuel : nat) (key : nat -> Z) (t : rb_tree) (a : nat) (i : Z)
  : option rb_tree :=
  match fuel with
  | O => None
  | S fuel' =>
    match t with
    | rb_nil => Some (rb_node RB_RED rb_nil a rb_nil)
    | rb_node c l other r =>
      if key other >? i
      then (fun l' => rb_node c l' other r) <$> link_loop fuel' key l a i
      else if key other <? i
      then (fun r' => rb_node c l other r') <$> link_loop fuel' key r a i
      else link_loop fuel' key t a i
    end
  end.

(** The loop of [gb_operation_find]. *)
Fixpoint find_loop (key : nat -> Z) (node : rb_tree) (i : Z) : option nat :=
  match node with
  | rb_nil => None
  | rb_node _ l operation r =>
    if key operation >? i then find_loop key l i
    else if key operation <? i then find_loop key r i
    else Some operation
  end.

Definition write_gbuf (g : nat) (off : nat) (bs : list Z) : M unit :=
  do b <- load_gbuf g;
  match store_bytes off bs (transfer_buffer b) with
  | Some buf' =>
    store_gbuf g (Gbuf buf' (transfer_buffer_length b) (actual_length b)
                       (status b) (outbound b) (context b))
  | None => raise DstOverrun
  end.

Section Operation.
Context {X : Externals}.

Definition gb_operation_insert (fuel : nat) (operation : nat) : M unit :=
  do o <- load_op operation;
  do w <- get;
  let connection := conn w in
  let '(new_id, cycle) := gb_connection_operation_id (op_cycle connection) in
  let new_id := u16 new_id in
  store_op operation
    (GbOperation new_id (request o) (response o) (callback o) (result o)
                 (completion o));;
  do g <- deref (request o);
  write_gbuf g off_id (cpu_to_le16 new_id);;
  do w <- get;
  match link_loop fuel (op_id w) (pending connection) operation new_id with
  | None => fun w => Spin w
  | Some t =>
    set_conn (GbConnection (protocol connection) cycle
                (rb_insert_color operation t) (operations connection))
  end.

Definition gb_operation_remove (operation : nat) : M unit :=
  do w <- get;
  let c := conn w in
  set_conn (GbConnection (protocol c) (op_cycle c)
              (rb_erase operation (pending c)) (operations c)).

Definition gb_operation_find (w : world) (i : Z) : option nat :=
  find_loop (op_id w) (pending (conn w)) i.

(** *** gb_operation_complete, gb_operation_wait *)

Definition gb_operation_complete (operation : nat) : M unit :=
  do o <- load_op operation;
  match callback o with
  | Some cb => emit (EvCallback cb operation)
  | None =>
    store_op operation
      (GbOperation (id o) (request o) (response o) (callback o) (result o) true);;
    emit (EvCompleteAll operation)
  end.

(** [wait_ret] is what [wait_for_completion_interruptible] returns (negative
    when interrupted) and [kill_ret] what [greybus_kill_gbuf] returns. *)
Definition gb_operation_wait (operation : nat) (wait_ret kill_ret : Z) : M Z :=
  if wait_ret <? 0 then
    do o <- load_op operation;
    emit (EvKill (request o));;
    ret kill_ret
  else ret wait_ret.

(** *** The request handlers *)

Inductive gb_operation_recv_handler := gb_operation_recv_none.

Definition run_handler (h : gb_operation_recv_handler) (operation : nat) : M unit :=
  match h with
  | gb_operation_recv_none => emit (EvHandler operation)
  end.

(** The designated initialisers of [gb_operation_recv_handlers], in source
    order. *)
Definition gb_operation_recv_handlers : list (Z * option gb_operation_recv_handler) :=
  [ (GREYBUS_PROTOCOL_CONTROL, None);
    (GREYBUS_PROTOCOL_AP, None);
    (GREYBUS_PROTOCOL_GPIO, None);
    (GREYBUS_PROTOCOL_I2C, Some gb_operation_recv_none);
    (GREYBUS_PROTOCOL_UART, None);
    (GREYBUS_PROTOCOL_HID, None);
    (GREYBUS_PROTOCOL_BATTERY, Some gb_operation_recv_none);
    (GREYBUS_PROTOCOL_LED, None);
    (GREYBUS_PROTOCOL_VENDOR, None) ].

(** One more than the largest designated index. *)
Definition ARRAY_SIZE {A} (tbl : list (Z * A)) : Z :=
  1 + foldr (fun e m => Z.max (fst e) m) 0 tbl.

(** The element at index [p]: the last initialiser that designates it, null
    when none does. *)
Definition table_entry {A} (tbl : list (Z * option A)) (p : Z) : option A :=
  foldl (fun acc e => if fst e =? p then snd e else acc) None tbl.

(** The handler the bounds test and the table give for a protocol, null
    included. *)
Definition lookup_handler (proto : Z) : option gb_operation_recv_handler :=
  if proto <=? u8 (ARRAY_SIZE gb_operation_recv_handlers - 1)
  then table_entry gb_operation_recv_handlers proto
  else None.

Definition gb_operation_request_handle (operation : nat) : M unit :=
  do w <- get;
  let proto := u8 (protocol (conn w)) in
  match lookup_handler proto with
  | Some h => run_handler h operation
  | None =>
    emit (EvErr "unrecognized protocol");;
    do o <- load_op operation;
    store_op operation
      (GbOperation (id o) (request o) (response o) (callback o)
                   GB_OP_PROTOCOL_BAD (completion o));;
    gb_operation_complete operation
  end.

Definition gb_operation_recv_work (operation : nat) : M unit :=
  do o <- load_op operation;
  let incoming_request := bool_decide (response o = None) in
  (if incoming_request then gb_operation_request_handle operation else ret tt);;
  gb_operation_complete operation;;
  do o <- load_op operation;
  if incoming_request then emit (EvFinished (request o))
  else emit (EvFinished (response o)).

(** *** Allocation *)

(** The answer to the next allocation attempt; attempts beyond the end of
    the list succeed. *)
Definition alloc_answer (w : world) : bool :=
  match allocs w with [] => true | b :: _ => b end.

Definition next_alloc : M bool :=
  fun w =>
    Ok (alloc_answer w)
       (World (conn w) (ops w) (gbufs w) (tail (allocs w)) (log w)).

Definition kzalloc (flags : gfp_t) : M (option nat) :=
  do ok <- next_alloc;
  if ok : bool then
    do w <- get;
    let a := fresh (dom (ops w)) in
    store_op a (GbOperation 0 None None None 0 false);;
    ret (Some a)
  else ret None.

Definition kfree (a : nat) : M unit :=
  fun w => Ok tt (World (conn w) (delete a (ops w)) (gbufs w) (allocs w) (log w)).

(** Modelled from the spec: [greybus_alloc_gbuf] of the transport, which
    returns a buffer of the size asked for, or fails. *)
Definition greybus_alloc_gbuf (size : Z) (data_out : bool) (flags : gfp_t)
    (ctx : nat) : M (option nat) :=
  do ok <- next_alloc;
  if ok : bool then
    do w <- get;
    let g := fresh (dom (gbufs w)) in
    store_gbuf g (Gbuf (replicate (Z.to_nat size) 0) size 0 0 data_out ctx);;
    ret (Some g)
  else ret None.

(** Modelled from the spec: [greybus_free_gbuf] of the transport, which
    releases a buffer and does nothing on a null one. *)
Definition greybus_free_gbuf (g : option nat) : M unit :=
  match g with
  | None => ret tt
  | Some g =>
    fun w => Ok tt (World (conn w) (ops w) (delete g (gbufs w)) (allocs w) (log w))
  end.

(** *** gb_operation_gbuf_create *)

Definition gb_operation_gbuf_create (operation : nat) (type : Z) (size : Z)
    (data_out : bool) : M (option nat) :=
  let gfp_flags := if data_out then GFP_KERNEL else GFP_ATOMIC in
  let size := size_t (size + sizeof_hdr) in
  do r <- greybus_alloc_gbuf size data_out gfp_flags operation;
  match r with
  | None => ret None
  | Some g =>
    write_gbuf g off_size (cpu_to_le16 size);;
    write_gbuf g off_id (cpu_to_le16 0);;
    write_gbuf g off_type [u8 type];;
    ret (Some g)
  end.

(** *** gb_operation_create, gb_operation_destroy *)

Definition list_add_tail (operation : nat) : M unit :=
  do w <- get;
  let c := conn w in
  set_conn (GbConnection (protocol c) (op_cycle c) (pending c)
              (operations c ++ [operation])).

Definition list_del (operation : nat) : M unit :=
  do w <- get;
  let c := conn w in
  set_conn (GbConnection (protocol c) (op_cycle c) (pending c)
              (filter (fun x => x <> operation) (operations c))).

Definition gb_operation_create (type : Z) (request_size response_size : Z)
  : M (option nat) :=
  let gfp_flags := if response_size =? 0 then GFP_ATOMIC else GFP_KERNEL in
  let outgoing := negb (response_size =? 0) in
  do r <- kzalloc gfp_flags;
  match r with
  | None => ret None
  | Some operation =>
    do rq <- gb_operation_gbuf_create operation type request_size outgoing;
    match rq with
    | None => kfree operation;; ret None
    | Some g =>
      do o <- load_op operation;
      store_op operation
        (GbOperation (id o) (Some g) (response o) (callback o) (result o)
                     (completion o));;
      do b <- load_gbuf g;
      store_gbuf g (Gbuf (transfer_buffer b) (transfer_buffer_length b)
                         request_size (status b) (outbound b) (context b));;
      let finish : M (option nat) :=
        do o <- load_op operation;
        store_op operation
          (GbOperation (id o) (request o) (response o) None (result o) false);;
        list_add_tail operation;;
        ret (Some operation) in
      if outgoing then
        let type := Z.lor type GB_OPERATION_TYPE_RESPONSE in
        do rs <- gb_operation_gbuf_create operation type response_size false;
        match rs with
        | None =>
          greybus_free_gbuf (Some g);;
          kfree operation;;
          ret None
        | Some g' =>
          do o <- load_op operation;
          store_op operation
            (GbOperation (id o) (request o) (Some g') (callback o) (result o)
                         (completion o));;
          finish
        end
      else finish
    end
  end.

Definition gb_operation_destroy (operation : nat) : M unit :=
  list_del operation;;
  do o <- load_op operation;
  greybus_free_gbuf (response o);;
  greybus_free_gbuf (request o);;
  kfree operation.

(** *** gb_operation_request_send, gb_operation_response_send *)

(** [submit_ret] is what [greybus_submit_gbuf] returns. *)
Definition gb_operation_request_send (fuel : nat) (operation : nat)
    (cb : option nat) (submit_ret wait_ret kill_ret : Z) : M Z :=
  do o <- load_op operation;
  store_op operation
    (GbOperation (id o) (request o) (response o) cb (result o) (completion o));;
  gb_operation_insert fuel operation;;
  do o <- load_op operation;
  emit (EvSubmit (request o));;
  if negb (submit_ret =? 0) then ret submit_ret
  else
    match cb with
    | None => gb_operation_wait operation wait_ret kill_ret
    | Some _ => ret submit_ret
    end.

Definition gb_operation_response_send (operation : nat) : M Z :=
  gb_operation_remove operation;;
  gb_operation_destroy operation;;
  ret 0.

(** *** gb_connection_operation_recv *)

Inductive copy_outcome := Copied (dst' : list Z) | Overrun (f : fault).

(** [memcpy dst src n]: undefined when [n] bytes do not fit the destination
    or are not there in the source. *)
Definition memcpy (dst src : list Z) (n : Z) : copy_outcome :=
  if n >? Z.of_nat (length dst) then Overrun DstOverrun
  else if n >? Z.of_nat (length src) then Overrun SrcOverrun
  else Copied (take (Z.to_nat n) src ++ drop (Z.to_nat n) dst).

Definition read_hdr (field : option Z) : M Z :=
  match field with Some v => ret v | None => raise SrcOverrun end.

(** The tail of the function, from the [memcpy] on. *)
Definition recv_copy (operation g : nat) (data : list Z) (msg_size : Z) : M unit :=
  do b <- load_gbuf g;
  emit (EvMemcpy g (Z.of_nat (length (transfer_buffer b))) msg_size);;
  match memcpy (transfer_buffer b) data msg_size with
  | Overrun f => raise f
  | Copied buf' =>
    store_gbuf g (Gbuf buf' (transfer_buffer_length b) msg_size (status b)
                       (outbound b) (context b));;
    emit (EvQueueWork operation)
  end.

(** [data] is the block of [size] bytes the transport delivers. *)
Definition gb_connection_operation_recv (data : list Z) : M unit :=
  let size := Z.of_nat (length data) in
  if size >? GB_OPERATION_MESSAGE_SIZE_MAX then
    emit (EvErr "message too big")
  else
    do msg_size <- read_hdr (hdr_size data);
    do type <- read_hdr (hdr_type data);
    if negb (Z.land type GB_OPERATION_TYPE_RESPONSE =? 0) then
      do i <- read_hdr (hdr_id data);
      do w <- get;
      match gb_operation_find w i with
      | None => emit (EvErr "operation not found")
      | Some operation =>
        gb_operation_remove operation;;
        do o <- load_op operation;
        do g <- deref (response o);
        do b <- load_gbuf g;
        store_gbuf g (Gbuf (transfer_buffer b) (transfer_buffer_length b)
                           (actual_length b) GB_OP_SUCCESS (outbound b)
                           (context b));;
        if size >? transfer_buffer_length b then
          emit (EvErr "recv buffer too small")
        else recv_copy operation g data msg_size
      end
    else
      (if negb (msg_size =? size) then emit EvWarn else ret tt);;
      do r <- gb_operation_create type msg_size 0;
      match r with
      | None => emit (EvErr "can't create operation")
      | Some operation =>
        do o <- load_op operation;
        do g <- deref (request o);
        recv_copy operation g data msg_size
      end.

End Operation.

(** ** A reference platform

    An unbalanced tree (no rotation on insertion, erasure by splicing the two
    subtrees), identifiers 1..65535 handed out in turn, and the protocol and
    status numbers of the Greybus headers.  It shows that [Externals] can be
    met and serves to run the code on concrete inputs. *)

Fixpoint join (l r : rb_tree) : rb_tree :=
  match l with
  | rb_nil => r
  | rb_node c l1 x r1 => rb_node c l1 x (join r1 r)
  end.

Fixpoint erase (a : nat) (t : rb_tree) : rb_tree :=
  match t with
  | rb_nil => rb_nil
  | rb_node c l x r =>
    if decide (x = a) then join l r else rb_node c (erase a l) x (erase a r)
  end.

#[global] Instance plain_externals : Externals.
Proof.
  refine {|
    rb_insert_color := fun _ t => t;
    rb_erase := erase;
    gb_connection_operation_id := fun c => (c mod 65535 + 1, c + 1);
    GREYBUS_PROTOCOL_CONTROL := 0x00;
    GREYBUS_PROTOCOL_AP := 0x01;
    GREYBUS_PROTOCOL_GPIO := 0x02;
    GREYBUS_PROTOCOL_I2C := 0x03;
    GREYBUS_PROTOCOL_UART := 0x04;
    GREYBUS_PROTOCOL_HID := 0x05;
    GREYBUS_PROTOCOL_BATTERY := 0x08;
    GREYBUS_PROTOCOL_LED := 0x0e;
    GREYBUS_PROTOCOL_VENDOR := 0xff;
    GB_OP_SUCCESS := 0;
    GB_OP_PROTOCOL_BAD := 5;
  |}.
  - reflexivity.
  - assert (Hjoin : forall l r, inorder (join l r) = inorder l ++ inorder r).
    { induction l as [|c l1 IH1 x r1 IH2]; intros r; simpl; [done|].
      by rewrite IH2, <- app_assoc. }
    assert (Hid : forall l : list nat, forall a, a ∉ l -> filter (fun x => x <> a) l = l).
    { induction l as [|y l IH]; intros a Ha; [done|].
      rewrite filter_cons. apply not_elem_of_cons in Ha as [Hne Ha].
      rewrite decide_True by congruence. by rewrite IH. }
    assert (Hgen : forall a t, NoDup (inorder t) ->
               inorder (erase a t) = filter (fun x => x <> a) (inorder t)).
    { intros a. induction t as [|c l IHl x r IHr]; intros Hnd; simpl; [done|].
      simpl in Hnd. apply NoDup_app in Hnd as (Hl & Hlr & Hr).
      apply NoDup_cons in Hr as [Hxr Hr].
      rewrite filter_app, filter_cons.
      destruct (decide (x = a)) as [->|Hne].
      - rewrite decide_False by (intros H; by apply H).
        rewrite Hjoin, !Hid; [done| |]; [done|].
        intros Hal. apply (Hlr a Hal). left.
      - rewrite decide_True by done. simpl. by rewrite IHl, IHr. }
    intros a t Hnd _. by apply Hgen.
Defined.

(** ** Invariants and observations *)

Definition key_lt (key : nat -> Z) : relation nat := fun a b => key a < key b.

(** The search order of the pending tree: identifiers strictly increase
    along the in-order sequence (so they are pairwise distinct). *)
Definition ordered (key : nat -> Z) (t : rb_tree) : Prop :=
  StronglySorted (key_lt key) (inorder t).

Definition registry_ok (w : world) : Prop :=
  ordered (op_id w) (pending (conn w)).

(** The state an outcome ends in. *)
Definition world_of {A} (r : outcome A) : world :=
  match r with Ok _ w | Fault _ w | Spin w => w end.

Definition add_log (w : world) (evs : list event) : world :=
  World (conn w) (ops w) (gbufs w) (allocs w) (log w ++ evs).

(** The answer the [n]-th coming allocation attempt gets. *)
Definition answer (n : nat) (w : world) : bool :=
  match allocs w !! n with Some b => b | None => true end.

Definition with_actual_length (b : gbuf) (n : Z) : gbuf :=
  Gbuf (transfer_buffer b) (transfer_buffer_length b) n (status b)
       (outbound b) (context b).

Definition with_status (b : gbuf) (s : Z) : gbuf :=
  Gbuf (transfer_buffer b) (transfer_buffer_length b) (actual_length b) s
       (outbound b) (context b).

(** The buffer [gb_operation_gbuf_create] hands back for a payload of
    [size] bytes: the filled-in header, then the payload area. *)
Definition framed_gbuf (operation : nat) (type size : Z) (data_out : bool) : gbuf :=
  Gbuf (cpu_to_le16 (size + sizeof_hdr) ++ [0; 0; u8 type; 0; 0; 0] ++
        replicate (Z.to_nat size) 0)
       (size + sizeof_hdr) 0 0 data_out operation.

(** The connection once [a] is erased from its pending tree. *)
Definition unregistered `{Externals} (w : world) (a : nat) : gb_connection :=
  GbConnection (protocol (conn w)) (op_cycle (conn w))
    (rb_erase a (pending (conn w))) (operations (conn w)).

Definition is_notification (a : nat) (e : event) : bool :=
  match e with
  | EvCallback _ op | EvCompleteAll op => bool_decide (op = a)
  | _ => false
  end.

(** How many times the completion of operation [a] was notified. *)
Definition notifications (a : nat) (evs : list event) : nat :=
  length (List.filter (is_notification a) evs).

(** The events a run added to the log. *)
Definition new_events (w w' : world) : list event :=
  drop (length (log w)) (log w').

(** Capacity of the request buffer of operation [a]. *)
Definition request_capacity (w : world) (a : nat) : option Z :=
  match ops w !! a with
  | Some o =>
    match request o with
    | Some g => transfer_buffer_length <$> gbufs w !! g
    | None => None
    end
  | None => None
  end.

(** A frame that is dropped without trace: it is refused, no operation is created and
    nothing that exists is touched; only the error is reported. *)
Definition frame_dropped `{Externals} (data : list Z) (w : world) : Prop :=
  exists w' msg,
    gb_connection_operation_recv data w = Ok tt w' /\
    conn w' = conn w /\ ops w' = ops w /\ gbufs w' = gbufs w /\
    log w' = log w ++ [EvErr msg].

(** Whether one of the allocations [gb_operation_create] attempts fails:
    the operation object, the request buffer, and the response buffer when
    a response size is given. *)
Definition create_fails (rs : Z) (w : world) : bool :=
  negb (answer 0 w) || negb (answer 1 w) || (negb (rs =? 0) && negb (answer 2 w)).

(** ** Concrete states and frames, on the reference platform *)

(** A connection for the GPIO protocol (number 2, which has no handler),
    with nothing allocated yet. *)
Definition w_idle : world :=
  World (GbConnection 2 0 rb_nil []) ∅ ∅ [] [].

(** [w_idle] after [gb_operation_create] with type 1 and 16-byte request
    and response payloads: operation 0 with buffers 0 and 1. *)
Definition w_created : world :=
  World (GbConnection 2 0 rb_nil [0%nat])
    (<[0%nat := GbOperation 0 (Some 0%nat) (Some 1%nat) None 0 false]> ∅)
    (<[1%nat := Gbuf ([24; 0; 0; 0; 129; 0; 0; 0] ++ replicate 16 0) 24 0 0 false 0]>
       (<[0%nat := Gbuf ([24; 0; 0; 0; 1; 0; 0; 0] ++ replicate 16 0) 24 16 0 true 0]> ∅))
    [] [].

(** [w_created] after an asynchronous [gb_operation_request_send] with
    callback 7: operation 0 is pending under identifier 1. *)
Definition w_pending : world :=
  World (GbConnection 2 1 (rb_node RB_RED rb_nil 0 rb_nil) [0%nat])
    (<[0%nat := GbOperation 1 (Some 0%nat) (Some 1%nat) (Some 7%nat) 0 false]> ∅)
    (<[1%nat := Gbuf ([24; 0; 0; 0; 129; 0; 0; 0] ++ replicate 16 0) 24 0 0 false 0]>
       (<[0%nat := Gbuf ([24; 0; 1; 0; 1; 0; 0; 0] ++ replicate 16 0) 24 16 0 true 0]> ∅))
    [] [EvSubmit (Some 0%nat)].

(** [w_pending] after a second [gb_operation_create]: operation 1 exists
    and is not sent yet. *)
Definition w_two : world :=
  Eval vm_compute in world_of (gb_operation_create 1 16 16 w_pending).

(** An incoming request: 8 bytes, declared size 8, type 1. *)
Definition frame_request8 : list Z := [8; 0; 0; 0; 1; 0; 0; 0].

(** An 8-byte block whose header declares 5000 bytes (0x1388). *)
Definition frame_declared5000 : list Z := [0x88; 0x13; 0; 0; 1; 0; 0; 0].

(** A response to identifier 1 of 32 bytes, more than the 24 bytes of the
    response buffer in [w_pending]. *)
Definition frame_response32 : list Z :=
  [32; 0; 1; 0; 129; 0; 0; 0] ++ replicate 24 7.

(** A response to identifier 1 of 8 bytes whose header declares 5000. *)
Definition frame_response_declared5000 : list Z :=
  [0x88; 0x13; 1; 0; 129; 0; 0; 0].

(** [-ERESTARTSYS], what an interrupted wait returns. *)
Definition ERESTARTSYS : Z := 512.

(** [w_two] after an asynchronous [gb_operation_request_send] of operation
    1 with callback 8: operations 0 and 1 are pending under identifiers 1
    and 2. *)
Definition w_both : world :=
  Eval vm_compute in
    world_of (gb_operation_request_send 2 1 (Some 8%nat) 0 0 0 w_two).

(** A 24-byte response to identifier 1: the header, then sixteen bytes
    of payload. *)
Definition frame_response24 : list Z :=
  [24; 0; 1; 0; 129; 0; 0; 0] ++ replicate 16 7.

(** A response to identifier 9, which nothing holds in [w_pending]. *)
Definition frame_response_unknown : list Z :=
  [8; 0; 9; 0; 129; 0; 0; 0].

(** ** The loopback driver's statistics ([loopback.c])

    The attribute check and the statistics are embedded; the fields are the
    C fields and hold values of their C types ([int] for [type] and
    [ms_wait], [u32] for [size], [error] and the statistics, [u64] for
    [elapsed_nsecs]), with [u32] wrap-around where the code computes in
    [u32].  The thread function, the ping and transfer requests and the
    sysfs plumbing are not. *)

Module Loopback.

Definition u32 (x : Z) : Z := x mod 2 ^ 32.
Definition u64 (x : Z) : Z := x mod 2 ^ 64.

(** Kernel constants. *)
Definition NSEC_PER_SEC : Z := 1000000000.
Definition NSEC_PER_MSEC : Z := 1000000.
Definition NSEC_PER_USEC : Z := 1000.


Record gb_loopback_stats := Stats {
  min : Z;
  max : Z;
  avg : Z;
  sum : Z;
  count : Z;
}.

Record timeval := Timeval {
  tv_sec : Z;
  tv_usec : Z;
}.

(** The kernel's [timeval_to_ns]. *)
Definition timeval_to_ns (tv : timeval) : Z :=
  tv_sec tv * NSEC_PER_SEC + tv_usec tv * NSEC_PER_USEC.

Record gb_loopback := GbLoopback {
  type : Z;
  size : Z;
  ms_wait : Z;
  latency : gb_loopback_stats;
  throughput : gb_loopback_stats;
  frequency : gb_loopback_stats;
  ts : timeval;
  te : timeval;
  elapsed_nsecs : Z;
  error : Z;
}.

Definition gb_loopback_reset_stats (gb : gb_loopback) : gb_loopback :=
  let reset := Stats 0xffffffff 0 0 0 0 in
  GbLoopback (type gb) (size gb) (ms_wait gb) reset reset reset
             (Timeval 0 0) (te gb) (elapsed_nsecs gb) (error gb).


Definition gb_loopback_update_stats (stats : gb_loopback_stats)
    (elapsed_nsecs : Z) : gb_loopback_stats :=
  if elapsed_nsecs >=? NSEC_PER_SEC then
    let avg' :=
      if count stats =? 0
      then u32 (sum stats * (elapsed_nsecs / NSEC_PER_SEC))
      else sum stats / count stats in
    Stats (if min stats >? avg' then avg' else min stats)
          (if max stats <? avg' then avg' else max stats)
          avg' 0 0
  else stats.



(** The sample [gb_loopback_latency_update] takes from [tlat]. *)
Definition latency_sample (tlat : timeval) : Z :=
  u32 (u64 (timeval_to_ns tlat) / NSEC_PER_MSEC).

Definition gb_loopback_latency_update (gb : gb_loopback) (tlat : timeval)
  : gb_loopback :=
  let lat := latency_sample tlat in
  let l := latency gb in
  let l := Stats (if min l >? lat then lat else min l)
                 (if max l <? lat then lat else max l)
                 (avg l) (u32 (sum l + lat)) (u32 (count l + 1)) in
  GbLoopback (type gb) (size gb) (ms_wait gb)
             (gb_loopback_update_stats l (elapsed_nsecs gb))
             (throughput gb) (frequency gb)
             (ts gb) (te gb) (elapsed_nsecs gb) (error gb).

End Loopback.

(** ** Host-device creation ([gb_hd_create])

    The limits [GB_OPERATION_MESSAGE_SIZE_MIN], [GB_OPERATION_MESSAGE_SIZE_MAX]
    and [CPORT_ID_MAX] of the host-device file come from a header and are
    arguments here; whether [kzalloc] succeeds and what [ida_simple_get]
    returns are the kernel's answers. *)

Module Hd.

(** Kernel error numbers. *)
Definition EINVAL : Z := 22.
Definition ENOMEM : Z := 12.

Record gb_hd_driver := HdDriver {
  hd_priv_size : Z;
  message_send : option nat;
  message_cancel : option nat;
}.

Record gb_host_device := HostDevice {
  driver : gb_hd_driver;
  bus_id : Z;
  buffer_size_max : Z;
  num_cports : Z;
}.

Inductive hd_event :=
| PrErr (msg : string)
| DevErr (msg : string)
| DevWarn (msg : string)
| Kzalloc
| Kfree.

(** The result is the [ERR_PTR] error number or the new host device. *)
Definition gb_hd_create (SIZE_MIN SIZE_MAX CPORT_ID_MAX : Z)
    (drv : gb_hd_driver) (buffer_size_max num_cports : Z)
    (kzalloc_ok : bool) (ida_ret : Z)
  : (Z + gb_host_device) * list hd_event :=
  if bool_decide (message_send drv = None) || bool_decide (message_cancel drv = None)
  then (inl (- EINVAL), [PrErr "Must implement all gb_hd_driver callbacks!"])
  else if buffer_size_max <? SIZE_MIN
  then (inl (- EINVAL), [DevErr "greybus host-device buffers too small"])
  else if (num_cports =? 0) || (num_cports >? CPORT_ID_MAX + 1)
  then (inl (- EINVAL), [DevErr "Invalid number of CPorts"])
  else
    let limited := buffer_size_max >? SIZE_MAX in
    let warn := if limited then [DevWarn "limiting buffer size"] else [] in
    let buffer_size_max := if limited then SIZE_MAX else buffer_size_max in
    if negb kzalloc_ok then (inl (- ENOMEM), warn)
    else if ida_ret <? 0 then (inl ida_ret, warn ++ [Kzalloc; Kfree])
    else (inr (HostDevice drv ida_ret buffer_size_max num_cports),
          warn ++ [Kzalloc]).

End Hd.

(** An idle connection for the I2C protocol (number 3, which has a
    handler). *)
Definition w_i2c : world :=
  World (GbConnection 3 0 rb_nil []) ∅ ∅ [] [].

(** [w_two] once the identifier counter has gone round: the next identifier
    it hands out is 1 again, which operation 0 still holds. *)
Definition w_wrapped : world :=
  World (GbConnection 2 65535 (pending (conn w_two)) (operations (conn w_two)))
        (ops w_two) (gbufs w_two) [] (log w_two).

(** Runs the store reads and writes that [simpl] exposes. *)
Ltac run_stores :=
  repeat (progress (rewrite ?lookup_insert_eq, ?insert_insert_eq; simpl)).

(** Membership in a short explicit list. *)
Ltac hd_mem :=
  first
    [ solve [rewrite ?elem_of_app, ?elem_of_cons; intuition]
    | let Hin := fresh "Hin" in
      intros Hin; rewrite ?elem_of_app, ?elem_of_cons, ?elem_of_nil in Hin;
      intuition discriminate ].

(** * Verification *)

(** ** The search tree *)

Section Tree.
Variable key : nat -> Z.

Lemma find_loop_sound t i a :
  find_loop key t i = Some a -> a ∈ inorder t /\ key a = i.
Proof.
  induction t as [|c l IHl x r IHr]; simpl; [done|].
  destruct (key x >? i) eqn:Hgt.
  - intros H. destruct (IHl H). split; [|done]. apply elem_of_app. by left.
  - destruct (key x <? i) eqn:Hlt.
    + intros H. destruct (IHr H). split; [|done].
      apply elem_of_app. right. by right.
    + intros [= <-]. split; [|lia]. apply elem_of_app. right. by left.
Qed.

Lemma find_loop_absent t i :
  (forall x, x ∈ inorder t -> key x <> i) -> find_loop key t i = None.
Proof.
  intros Habs. destruct (find_loop key t i) as [a|] eqn:Hf; [|done].
  apply find_loop_sound in Hf as [Hin Hk]. by destruct (Habs a Hin).
Qed.

Lemma find_loop_member t a :
  ordered key t -> a ∈ inorder t -> find_loop key t (key a) = Some a.
Proof.
  unfold ordered.
  induction t as [|c l IHl x r IHr]; simpl; intros Hord Hin.
  - by apply elem_of_nil in Hin.
  - apply StronglySorted_app in Hord as (Hcross & Hl & Hxr).
    apply StronglySorted_cons in Hxr as [Hx Hr].
    rewrite Forall_forall in Hx.
    apply elem_of_app in Hin as [Hin|Hin].
    + assert (key a < key x) by (apply Hcross; [done|by left]).
      replace (key x >? key a) with true by lia. by apply IHl.
    + apply elem_of_cons in Hin as [->|Hin].
      * replace (key x >? key x) with false by lia.
        by replace (key x <? key x) with false by lia.
      * assert (key x < key a) by by apply Hx.
        replace (key x >? key a) with false by lia.
        replace (key x <? key a) with true by lia. by apply IHr.
Qed.

Lemma ordered_NoDup t : ordered key t -> NoDup (inorder t).
Proof.
  unfold ordered. generalize (inorder t) as l.
  induction l as [|x l IH]; intros Hs; [constructor|].
  apply StronglySorted_cons in Hs as [Hx Hs]. constructor; [|by apply IH].
  intros Hin. rewrite Forall_forall in Hx. specialize (Hx x Hin).
  unfold key_lt in Hx. lia.
Qed.

Lemma sorted_filter (P : nat -> Prop) `{forall x, Decision (P x)} l :
  StronglySorted (key_lt key) l -> StronglySorted (key_lt key) (filter P l).
Proof.
  induction l as [|x l IH]; intros Hs; [done|].
  apply StronglySorted_cons in Hs as [Hx Hs]. rewrite filter_cons.
  destruct (decide (P x)); [|by apply IH].
  apply StronglySorted_cons. split; [|by apply IH].
  rewrite Forall_forall in *. intros y Hy.
  apply list_elem_of_filter in Hy as [_ Hy]. by apply Hx.
Qed.

(** With enough fuel, and the new identifier held by no node, the descent
    ends and links the node where the search order wants it. *)
Lemma link_loop_spec fuel t a i :
  ordered key t ->
  (forall x, x ∈ inorder t -> key x <> i) ->
  (height t < fuel)%nat ->
  exists t' l1 l2,
    link_loop fuel key t a i = Some t' /\
    inorder t = l1 ++ l2 /\ inorder t' = l1 ++ a :: l2 /\
    (forall x, x ∈ l1 -> key x < i) /\ (forall x, x ∈ l2 -> i < key x).
Proof.
  unfold ordered. revert t.
  induction fuel as [|fuel IH]; intros t Hord Hfresh Hfuel; [lia|].
  destruct t as [|c l x r]; simpl.
  - exists (rb_node RB_RED rb_nil a rb_nil), [], [].
    repeat split; try done; intros y Hy; by apply elem_of_nil in Hy.
  - simpl in Hord, Hfresh, Hfuel.
    apply StronglySorted_app in Hord as (Hcross & Hl & Hxr).
    apply StronglySorted_cons in Hxr as [Hx Hr].
    rewrite Forall_forall in Hx.
    assert (key x <> i) as Hne.
    { apply Hfresh, elem_of_app. right. by left. }
    destruct (key x >? i) eqn:Hgt.
    + destruct (IH l) as (l' & l1 & l2 & -> & Hl12 & Hl' & Hlo & Hhi);
        [done| |lia|].
      { intros y Hy. apply Hfresh, elem_of_app. by left. }
      exists (rb_node c l' x r), l1, (l2 ++ x :: inorder r). simpl.
      rewrite Hl12, Hl', <- !app_assoc. repeat split; try done.
      intros y Hy. apply elem_of_app in Hy as [Hy|Hy]; [by apply Hhi|].
      apply elem_of_cons in Hy as [->|Hy]; [lia|].
      specialize (Hx y Hy). unfold key_lt in Hx. lia.
    + replace (key x <? i) with true by lia.
      destruct (IH r) as (r' & l1 & l2 & -> & Hr12 & Hr' & Hlo & Hhi);
        [done| |lia|].
      { intros y Hy. apply Hfresh, elem_of_app. right. by right. }
      exists (rb_node c l x r'), (inorder l ++ x :: l1), l2. simpl.
      rewrite Hr12, Hr', <- !app_assoc. repeat split; try done.
      intros y Hy. apply elem_of_app in Hy as [Hy|Hy].
      * assert (key_lt key y x) as Hyx by (apply Hcross; [done|by left]).
        unfold key_lt in Hyx. lia.
      * apply elem_of_cons in Hy as [->|Hy]; [lia|by apply Hlo].
Qed.

(** When the identifier is already in the tree the descent reaches its node
    and stays there: no amount of fuel lets the loop end. *)
Lemma link_loop_collision fuel t a i :
  is_Some (find_loop key t i) -> link_loop fuel key t a i = None.
Proof.
  revert t. induction fuel as [|fuel IH]; intros t Hf; [done|].
  destruct t as [|c l x r]; simpl in *.
  - by destruct Hf.
  - destruct (key x >? i) eqn:Hgt; [by rewrite IH|].
    destruct (key x <? i) eqn:Hlt; [by rewrite IH|].
    apply IH. simpl. by rewrite Hgt, Hlt.
Qed.

End Tree.

Lemma find_loop_ext key key' t i :
  (forall x, x ∈ inorder t -> key x = key' x) ->
  find_loop key t i = find_loop key' t i.
Proof.
  induction t as [|c l IHl x r IHr]; simpl; intros Hk; [done|].
  rewrite <- (Hk x) by (apply elem_of_app; right; by left).
  rewrite IHl by (intros y Hy; apply Hk, elem_of_app; by left).
  by rewrite IHr by (intros y Hy; apply Hk, elem_of_app; right; by right).
Qed.

Lemma ordered_ext key key' t :
  (forall x, x ∈ inorder t -> key x = key' x) ->
  ordered key t -> ordered key' t.
Proof.
  unfold ordered. generalize (inorder t) as l.
  induction l as [|x l IH]; intros Hk Hs; [constructor|].
  apply StronglySorted_cons in Hs as [Hx Hs]. apply StronglySorted_cons.
  split.
  - rewrite Forall_forall in *. intros y Hy. specialize (Hx y Hy).
    unfold key_lt in *. rewrite <- (Hk x), <- (Hk y); [done|by right|by left].
  - apply IH; [|done]. intros y Hy. apply Hk. by right.
Qed.

(** ** Single steps *)

Lemma write_gbuf_ok g off bs w b :
  gbufs w !! g = Some b ->
  (off + length bs <= length (transfer_buffer b))%nat ->
  write_gbuf g off bs w =
    Ok tt (World (conn w) (ops w)
             (<[g := Gbuf (take off (transfer_buffer b) ++ bs ++
                           drop (off + length bs) (transfer_buffer b))
                          (transfer_buffer_length b) (actual_length b)
                          (status b) (outbound b) (context b)]> (gbufs w))
             (allocs w) (log w)).
Proof.
  intros Hg Hlen. unfold write_gbuf, bind, load_gbuf. rewrite Hg.
  unfold store_bytes. by rewrite decide_True.
Qed.

Lemma le16_roundtrip v :
  match cpu_to_le16 v with
  | [lo; hi] => le16_to_cpu lo hi = u16 v
  | _ => False
  end.
Proof.
  unfold cpu_to_le16, le16_to_cpu, u8, u16. simpl.
  pose proof (Z.mod_pos_bound v 65536 eq_refl) as Hv.
  pose proof (Z.mod_pos_bound (v mod 65536) 256 eq_refl).
  assert (0 <= v mod 65536 / 256 < 256)
    by (split; [apply Z.div_pos; lia|apply Z.div_lt_upper_bound; lia]).
  rewrite (Z.mod_small (v mod 65536 mod 256)), (Z.mod_small (v mod 65536 / 256))
    by lia.
  pose proof (Z.div_mod (v mod 65536) 256). lia.
Qed.

Lemma hdr_id_written tb v :
  (4 <= length tb)%nat ->
  hdr_id (take off_id tb ++ cpu_to_le16 v ++
          drop (off_id + length (cpu_to_le16 v)) tb) = Some (u16 v).
Proof.
  intros Hlen. pose proof (le16_roundtrip v) as Hrt.
  assert (length (take off_id tb) = 2%nat) as Htake
    by (rewrite length_take; unfold off_id; lia).
  unfold hdr_id, le16_at.
  rewrite (lookup_app_r _ _ off_id), (lookup_app_r _ _ (S off_id))
    by (rewrite Htake; unfold off_id; lia).
  rewrite Htake. unfold cpu_to_le16 in *. simpl in *. by rewrite Hrt.
Qed.

(** ** The registry: insert, find, remove *)

Section Registry.
Context {X : Externals}.

Lemma registry_ok_empty p cyc l m1 m2 al lg :
  registry_ok (World (GbConnection p cyc rb_nil l) m1 m2 al lg).
Proof. constructor. Qed.

Lemma gb_operation_insert_ok fuel w a o g b :
  registry_ok w ->
  ops w !! a = Some o -> request o = Some g -> gbufs w !! g = Some b ->
  (4 <= length (transfer_buffer b))%nat ->
  a ∉ inorder (pending (conn w)) ->
  (forall x, x ∈ inorder (pending (conn w)) ->
     op_id w x <> u16 (gb_connection_operation_id (op_cycle (conn w))).1) ->
  (height (pending (conn w)) < fuel)%nat ->
  exists w',
    gb_operation_insert fuel a w = Ok tt w' /\
    op_id w' a = u16 (gb_connection_operation_id (op_cycle (conn w))).1 /\
    gb_operation_find w' (op_id w' a) = Some a /\
    registry_ok w' /\
    (forall x, x <> a -> op_id w' x = op_id w x) /\
    inorder (pending (conn w')) ≡ₚ a :: inorder (pending (conn w)) /\
    ops w' !! a =
      Some (GbOperation (u16 (gb_connection_operation_id (op_cycle (conn w))).1)
              (request o) (response o) (callback o) (result o) (completion o)) /\
    log w' = log w /\
    hdr_id <$> (transfer_buffer <$> gbufs w' !! g) = Some (Some (op_id w' a)).
Proof.
  intros Hok Ha Hreq Hg Hlen Hnotin Hfresh Hfuel.
  unfold gb_operation_insert, bind, load_op. rewrite Ha. simpl.
  destruct (gb_connection_operation_id (op_cycle (conn w))) as [nid cyc] eqn:Hid.
  simpl in Hfresh |- *. rewrite Hreq. simpl.
  erewrite write_gbuf_ok by (simpl; first [done|unfold off_id; simpl; lia]).
  simpl. set (w1 := World _ _ _ _ _).
  assert (Hkey : forall x, x <> a -> op_id w1 x = op_id w x).
  { intros x Hx. unfold op_id, w1. simpl. by rewrite lookup_insert_ne. }
  assert (Hkeya : op_id w1 a = u16 nid).
  { unfold op_id, w1. simpl. by rewrite lookup_insert_eq. }
  assert (Htree : forall x, x ∈ inorder (pending (conn w)) -> op_id w x = op_id w1 x).
  { intros x Hx. symmetry. apply Hkey. intros ->. done. }
  destruct (link_loop_spec (op_id w1) fuel (pending (conn w)) a (u16 nid))
    as (t' & l1 & l2 & Hlink & Hin & Hin' & Hlo & Hhi); [| |done|].
  { by apply (ordered_ext (op_id w)). }
  { intros x Hx. rewrite <- Htree by done. by apply Hfresh. }
  rewrite Hlink. unfold set_conn. simpl. eexists. split; [reflexivity|].
  assert (Hord' : ordered (op_id w1) (rb_insert_color a t')).
  { unfold ordered. rewrite rb_insert_color_inorder, Hin'.
    apply (ordered_ext (op_id w) (op_id w1)) in Hok; [|done].
    unfold ordered in Hok. rewrite Hin in Hok.
    apply StronglySorted_app in Hok as (Hcross & Hs1 & Hs2).
    apply StronglySorted_app. split_and!; [|done|].
    - intros x y Hx Hy. unfold key_lt.
      apply elem_of_cons in Hy as [->|Hy].
      + rewrite Hkeya. by apply Hlo.
      + by apply Hcross.
    - apply StronglySorted_cons. split; [|done].
      rewrite Forall_forall. intros y Hy. unfold key_lt.
      rewrite Hkeya. by apply Hhi. }
  unfold gb_operation_find, registry_ok, op_id in *. simpl in *.
  split_and!.
  - done.
  - apply (find_loop_member _ _ a Hord').
    rewrite rb_insert_color_inorder, Hin'. apply elem_of_app. right. by left.
  - done.
  - done.
  - rewrite rb_insert_color_inorder, Hin', Hin.
    symmetry. apply Permutation_middle.
  - by rewrite lookup_insert_eq.
  - done.
  - rewrite !lookup_insert_eq. simpl.
    pose proof (hdr_id_written (transfer_buffer b) (u16 nid) Hlen) as Hh.
    unfold cpu_to_le16 in Hh. simpl in Hh. rewrite Hh.
    unfold u16. by rewrite Z.mod_mod.
Qed.

Lemma ordered_key_inj key t x y :
  ordered key t -> x ∈ inorder t -> y ∈ inorder t -> key x = key y -> x = y.
Proof.
  intros Hord Hx Hy Hk.
  pose proof (find_loop_member key t x Hord Hx) as Hfx.
  pose proof (find_loop_member key t y Hord Hy) as Hfy.
  rewrite Hk in Hfx. congruence.
Qed.

Lemma gb_operation_remove_ok w a :
  registry_ok w -> a ∈ inorder (pending (conn w)) ->
  exists w',
    gb_operation_remove a w = Ok tt w' /\
    gb_operation_find w' (op_id w a) = None /\
    registry_ok w' /\
    inorder (pending (conn w')) = filter (fun x => x <> a) (inorder (pending (conn w))) /\
    ops w' = ops w /\ gbufs w' = gbufs w /\ log w' = log w /\
    allocs w' = allocs w /\ operations (conn w') = operations (conn w).
Proof.
  intros Hok Hin. unfold gb_operation_remove, bind, get, set_conn.
  eexists. split; [reflexivity|].
  pose proof (ordered_NoDup _ _ Hok) as Hnd.
  unfold gb_operation_find, registry_ok, ordered, op_id in *. simpl.
  rewrite rb_erase_inorder by done.
  split_and!; try done.
  - apply find_loop_absent. intros x Hx.
    unfold ordered. rewrite rb_erase_inorder in Hx by done.
    apply list_elem_of_filter in Hx as [Hne Hx]. intros Hk. apply Hne.
    by apply (ordered_key_inj _ _ x a Hok).
  - by apply sorted_filter.
Qed.

(** An identifier that collides with a pending one: the descent loop never
    ends, whatever the fuel. *)
Lemma gb_operation_insert_collision fuel w a o g b x :
  ops w !! a = Some o -> request o = Some g -> gbufs w !! g = Some b ->
  (4 <= length (transfer_buffer b))%nat ->
  a ∉ inorder (pending (conn w)) ->
  x ∈ inorder (pending (conn w)) -> registry_ok w ->
  op_id w x = u16 (gb_connection_operation_id (op_cycle (conn w))).1 ->
  exists w', gb_operation_insert fuel a w = Spin w'.
Proof.
  intros Ha Hreq Hg Hlen Hnotin Hx Hok Hcol.
  unfold gb_operation_insert, bind, load_op. rewrite Ha. simpl.
  destruct (gb_connection_operation_id (op_cycle (conn w))) as [nid cyc] eqn:Hid.
  simpl in Hcol |- *. rewrite Hreq. simpl.
  erewrite write_gbuf_ok by (simpl; first [done|unfold off_id; simpl; lia]).
  simpl. set (w1 := World _ _ _ _ _).
  rewrite link_loop_collision; [by eexists|].
  rewrite <- Hcol.
  erewrite <- (find_loop_ext (op_id w)).
  - by erewrite find_loop_member.
  - intros y Hy. unfold op_id, w1. simpl.
    rewrite lookup_insert_ne; [done|]. by intros ->.
Qed.

End Registry.

(** ** Buffer and operation creation *)

Lemma fresh_gmap_None {A} (m : gmap nat A) : m !! fresh (dom m) = None.
Proof. apply not_elem_of_dom, is_fresh. Qed.

Lemma gb_operation_gbuf_create_ok operation type size data_out w :
  alloc_answer w = true -> 0 <= size -> size + sizeof_hdr < 2 ^ 64 ->
  gb_operation_gbuf_create operation type size data_out w =
    Ok (Some (fresh (dom (gbufs w))))
       (World (conn w) (ops w)
          (<[fresh (dom (gbufs w)) := framed_gbuf operation type size data_out]>
             (gbufs w))
          (tail (allocs w)) (log w)).
Proof.
  intros Hans Hsz Hmax.
  unfold gb_operation_gbuf_create, greybus_alloc_gbuf, bind, next_alloc, get,
    store_gbuf, ret. rewrite Hans. simpl.
  unfold size_t. rewrite Z.mod_small by (unfold sizeof_hdr in *; lia).
  replace (Z.to_nat (size + sizeof_hdr)) with (8 + Z.to_nat size)%nat
    by (unfold sizeof_hdr; lia).
  set (g := fresh (dom (gbufs w))).
  erewrite write_gbuf_ok; [|simpl; apply lookup_insert_eq|simpl; lia].
  erewrite write_gbuf_ok; [|simpl; apply lookup_insert_eq|simpl; lia].
  erewrite write_gbuf_ok; [|simpl; apply lookup_insert_eq|simpl; lia].
  simpl. rewrite !insert_insert_eq. reflexivity.
Qed.

Lemma gb_operation_gbuf_create_fail operation type size data_out w :
  alloc_answer w = false ->
  gb_operation_gbuf_create operation type size data_out w =
    Ok None (World (conn w) (ops w) (gbufs w) (tail (allocs w)) (log w)).
Proof.
  intros Hans.
  unfold gb_operation_gbuf_create, greybus_alloc_gbuf, bind, next_alloc.
  by rewrite Hans.
Qed.

Lemma alloc_answer_0 w : alloc_answer w = answer 0 w.
Proof. unfold alloc_answer, answer. by destruct (allocs w). Qed.

Lemma alloc_answer_1 c o g l w :
  alloc_answer (World c o g (tail (allocs w)) l) = answer 1 w.
Proof. unfold alloc_answer, answer. simpl. by destruct (allocs w) as [|? [|? ?]]. Qed.

Lemma alloc_answer_2 c o g l w :
  alloc_answer (World c o g (tail (tail (allocs w))) l) = answer 2 w.
Proof.
  unfold alloc_answer, answer. simpl.
  by destruct (allocs w) as [|? [|? [|? ?]]].
Qed.

Lemma gb_operation_create_no_object type rq rs w :
  answer 0 w = false ->
  gb_operation_create type rq rs w =
    Ok None (World (conn w) (ops w) (gbufs w) (tail (allocs w)) (log w)).
Proof.
  intros H0. unfold gb_operation_create, kzalloc, bind, next_alloc.
  by rewrite alloc_answer_0, H0.
Qed.

Lemma gb_operation_create_no_request type rq rs w :
  answer 0 w = true -> answer 1 w = false ->
  gb_operation_create type rq rs w =
    Ok None (World (conn w) (ops w) (gbufs w) (tail (tail (allocs w))) (log w)).
Proof.
  intros H0 H1. unfold gb_operation_create, kzalloc, bind, next_alloc.
  rewrite alloc_answer_0, H0. simpl.
  rewrite gb_operation_gbuf_create_fail by (by rewrite alloc_answer_1).
  unfold kfree, ret. simpl.
  by rewrite delete_insert_eq, delete_id by apply fresh_gmap_None.
Qed.

Lemma gb_operation_create_no_response type rq rs w :
  answer 0 w = true -> answer 1 w = true -> answer 2 w = false ->
  rs <> 0 -> 0 <= rq -> rq + sizeof_hdr < 2 ^ 64 ->
  gb_operation_create type rq rs w =
    Ok None
       (World (conn w) (ops w) (gbufs w) (tail (tail (tail (allocs w)))) (log w)).
Proof.
  intros H0 H1 H2 Hrs Hrq Hmax.
  unfold gb_operation_create, kzalloc, bind, next_alloc.
  rewrite alloc_answer_0, H0. simpl.
  rewrite gb_operation_gbuf_create_ok by (by rewrite ?alloc_answer_1).
  unfold load_op, store_op, load_gbuf, store_gbuf. run_stores.
  replace (rs =? 0) with false by lia. simpl.
  rewrite gb_operation_gbuf_create_fail by (by rewrite alloc_answer_2).
  unfold kfree, ret. run_stores.
  by rewrite !delete_insert_eq, !delete_id by apply fresh_gmap_None.
Qed.

Lemma gb_operation_create_incoming type rq w :
  answer 0 w = true -> answer 1 w = true ->
  0 <= rq -> rq + sizeof_hdr < 2 ^ 64 ->
  let a := fresh (dom (ops w)) in
  let g := fresh (dom (gbufs w)) in
  gb_operation_create type rq 0 w =
    Ok (Some a)
       (World (GbConnection (protocol (conn w)) (op_cycle (conn w))
                 (pending (conn w)) (operations (conn w) ++ [a]))
          (<[a := GbOperation 0 (Some g) None None 0 false]> (ops w))
          (<[g := with_actual_length (framed_gbuf a type rq false) rq]> (gbufs w))
          (tail (tail (allocs w))) (log w)).
Proof.
  intros H0 H1 Hrq Hmax a g.
  unfold gb_operation_create, kzalloc, bind, next_alloc.
  rewrite alloc_answer_0, H0. simpl.
  rewrite gb_operation_gbuf_create_ok by (by rewrite ?alloc_answer_1).
  unfold load_op, store_op, load_gbuf, store_gbuf,
    list_add_tail, bind, get, set_conn, ret.
  by run_stores.
Qed.

Lemma gb_operation_create_outgoing type rq rs w :
  answer 0 w = true -> answer 1 w = true -> answer 2 w = true ->
  rs <> 0 -> 0 <= rq -> rq + sizeof_hdr < 2 ^ 64 ->
  0 <= rs -> rs + sizeof_hdr < 2 ^ 64 ->
  let a := fresh (dom (ops w)) in
  let g := fresh (dom (gbufs w)) in
  let bq := with_actual_length (framed_gbuf a type rq true) rq in
  let g' := fresh (dom (<[g := bq]> (gbufs w))) in
  gb_operation_create type rq rs w =
    Ok (Some a)
       (World (GbConnection (protocol (conn w)) (op_cycle (conn w))
                 (pending (conn w)) (operations (conn w) ++ [a]))
          (<[a := GbOperation 0 (Some g) (Some g') None 0 false]> (ops w))
          (<[g' := framed_gbuf a (Z.lor type GB_OPERATION_TYPE_RESPONSE) rs false]>
             (<[g := bq]> (gbufs w)))
          (tail (tail (tail (allocs w)))) (log w)).
Proof.
  intros H0 H1 H2 Hrs Hrq Hmax Hrs0 Hrsmax a g bq g'.
  unfold gb_operation_create, kzalloc, bind, next_alloc.
  rewrite alloc_answer_0, H0. simpl.
  rewrite gb_operation_gbuf_create_ok by (by rewrite ?alloc_answer_1).
  unfold load_op, store_op, load_gbuf, store_gbuf. run_stores.
  replace (rs =? 0) with false by lia. simpl.
  rewrite gb_operation_gbuf_create_ok by (by rewrite ?alloc_answer_2).
  unfold list_add_tail, bind, get, set_conn, ret.
  by run_stores.
Qed.

(** ** The receive dispatcher *)

Lemma le16_at_range off data v : le16_at off data = Some v -> 0 <= v < 65536.
Proof.
  unfold le16_at, le16_to_cpu, u8.
  destruct (data !! off), (data !! S off); intros [= <-].
  pose proof (Z.mod_pos_bound z 256). pose proof (Z.mod_pos_bound z0 256). lia.
Qed.

Lemma recv_copy_eq operation g data msg_size w b :
  gbufs w !! g = Some b ->
  recv_copy operation g data msg_size w =
    match memcpy (transfer_buffer b) data msg_size with
    | Overrun f =>
      Fault f (add_log w [EvMemcpy g (Z.of_nat (length (transfer_buffer b))) msg_size])
    | Copied buf' =>
      Ok tt (World (conn w) (ops w)
               (<[g := Gbuf buf' (transfer_buffer_length b) msg_size (status b)
                            (outbound b) (context b)]> (gbufs w))
               (allocs w)
               (log w ++ [EvMemcpy g (Z.of_nat (length (transfer_buffer b))) msg_size;
                          EvQueueWork operation]))
    end.
Proof.
  intros Hg. unfold recv_copy, bind, load_gbuf, emit. rewrite Hg. simpl.
  destruct (memcpy _ _ _); [|done]. simpl. by rewrite <- app_assoc.
Qed.

Section Receive.
Context {X : Externals}.

Lemma recv_too_big data w :
  Z.of_nat (length data) > GB_OPERATION_MESSAGE_SIZE_MAX ->
  gb_connection_operation_recv data w = Ok tt (add_log w [EvErr "message too big"]).
Proof.
  intros Hbig. unfold gb_connection_operation_recv.
  by replace (_ >? _) with true by lia.
Qed.

Lemma recv_request data w msg_size type :
  Z.of_nat (length data) <= GB_OPERATION_MESSAGE_SIZE_MAX ->
  hdr_size data = Some msg_size -> hdr_type data = Some type ->
  Z.land type GB_OPERATION_TYPE_RESPONSE = 0 ->
  answer 0 w = true -> answer 1 w = true ->
  let size := Z.of_nat (length data) in
  let a := fresh (dom (ops w)) in
  let g := fresh (dom (gbufs w)) in
  let b := with_actual_length (framed_gbuf a type msg_size false) msg_size in
  let warn := if msg_size =? size then [] else [EvWarn] in
  let made buf evs :=
    World (GbConnection (protocol (conn w)) (op_cycle (conn w))
             (pending (conn w)) (operations (conn w) ++ [a]))
      (<[a := GbOperation 0 (Some g) None None 0 false]> (ops w))
      (<[g := buf]> (gbufs w))
      (tail (tail (allocs w)))
      (log w ++ warn ++ EvMemcpy g (msg_size + sizeof_hdr) msg_size :: evs) in
  gb_connection_operation_recv data w =
    if msg_size <=? size
    then Ok tt (made (Gbuf (take (Z.to_nat msg_size) data ++
                            drop (Z.to_nat msg_size) (transfer_buffer b))
                           (msg_size + sizeof_hdr) msg_size 0 false a)
                     [EvQueueWork a])
    else Fault SrcOverrun (made b []).
Proof.
  intros Hmax Hsz Hty Hbit H0 H1 size a g b warn made.
  pose proof (le16_at_range _ _ _ Hsz) as Hrange.
  unfold gb_connection_operation_recv.
  replace (_ >? GB_OPERATION_MESSAGE_SIZE_MAX) with false by lia.
  rewrite Hsz, Hty. unfold bind at 1 2. simpl. rewrite Hbit. simpl.
  fold size.
  assert (Hlenb : Z.of_nat (length (transfer_buffer b)) = msg_size + sizeof_hdr).
  { unfold b, sizeof_hdr. simpl. rewrite length_replicate. lia. }
  assert (Hcopy : forall w1, answer 0 w1 = true -> answer 1 w1 = true ->
    ops w1 = ops w -> gbufs w1 = gbufs w -> conn w1 = conn w ->
    allocs w1 = allocs w -> log w1 = log w ++ warn ->
    bind (gb_operation_create type msg_size 0)
      (fun r => match r with
                | Some operation =>
                  do o <- load_op operation;
                  do g <- deref (request o);
                  recv_copy operation g data msg_size
                | None => emit (EvErr "can't create operation")
                end) w1 =
    if msg_size <=? size
    then Ok tt (made (Gbuf (take (Z.to_nat msg_size) data ++
                            drop (Z.to_nat msg_size) (transfer_buffer b))
                           (msg_size + sizeof_hdr) msg_size 0 false a)
                     [EvQueueWork a])
    else Fault SrcOverrun (made b [])).
  { intros w1 Ha0 Ha1 Hops Hgb Hconn Hal Hlog. unfold bind at 1.
    rewrite gb_operation_create_incoming
      by (try done; unfold sizeof_hdr; lia).
    rewrite Hops, Hgb, Hconn, Hal, Hlog. fold a g.
    unfold bind, load_op. simpl. rewrite lookup_insert_eq. simpl.
    erewrite recv_copy_eq by (simpl; apply lookup_insert_eq).
    fold b. rewrite Hlenb. unfold memcpy. rewrite Hlenb.
    replace (msg_size >? msg_size + sizeof_hdr) with false
      by (unfold sizeof_hdr; lia).
    fold size. unfold made, add_log. simpl.
    destruct (msg_size <=? size) eqn:Hle.
    - replace (msg_size >? size) with false by lia.
      rewrite insert_insert_eq. by rewrite <- !app_assoc.
    - replace (msg_size >? size) with true by lia.
      by rewrite <- !app_assoc. }
  unfold warn in *. destruct (msg_size =? size) eqn:Heq; simpl.
  - unfold bind at 1. simpl. apply Hcopy; try done. simpl. by rewrite app_nil_r.
  - unfold bind at 1. simpl. apply Hcopy; try done.
Qed.

Lemma recv_not_found data w msg_size type i :
  Z.of_nat (length data) <= GB_OPERATION_MESSAGE_SIZE_MAX ->
  hdr_size data = Some msg_size -> hdr_type data = Some type ->
  Z.land type GB_OPERATION_TYPE_RESPONSE <> 0 ->
  hdr_id data = Some i -> gb_operation_find w i = None ->
  gb_connection_operation_recv data w =
    Ok tt (add_log w [EvErr "operation not found"]).
Proof.
  intros Hmax Hsz Hty Hbit Hid Hfind.
  unfold gb_connection_operation_recv.
  replace (_ >? GB_OPERATION_MESSAGE_SIZE_MAX) with false by lia.
  rewrite Hsz, Hty, Hid. unfold bind, get. simpl.
  replace (_ =? 0) with false by lia. simpl. by rewrite Hfind.
Qed.

Lemma recv_response data w msg_size type i a o g b :
  Z.of_nat (length data) <= GB_OPERATION_MESSAGE_SIZE_MAX ->
  hdr_size data = Some msg_size -> hdr_type data = Some type ->
  Z.land type GB_OPERATION_TYPE_RESPONSE <> 0 ->
  hdr_id data = Some i -> gb_operation_find w i = Some a ->
  ops w !! a = Some o -> response o = Some g -> gbufs w !! g = Some b ->
  let size := Z.of_nat (length data) in
  let cap := Z.of_nat (length (transfer_buffer b)) in
  gb_connection_operation_recv data w =
    if size >? transfer_buffer_length b then
      Ok tt (World (unregistered w a) (ops w)
               (<[g := with_status b GB_OP_SUCCESS]> (gbufs w)) (allocs w)
               (log w ++ [EvErr "recv buffer too small"]))
    else
      match memcpy (transfer_buffer b) data msg_size with
      | Overrun f =>
        Fault f (World (unregistered w a) (ops w)
                   (<[g := with_status b GB_OP_SUCCESS]> (gbufs w)) (allocs w)
                   (log w ++ [EvMemcpy g cap msg_size]))
      | Copied buf' =>
        Ok tt (World (unregistered w a) (ops w)
                 (<[g := Gbuf buf' (transfer_buffer_length b) msg_size
                              GB_OP_SUCCESS (outbound b) (context b)]> (gbufs w))
                 (allocs w)
                 (log w ++ [EvMemcpy g cap msg_size; EvQueueWork a]))
      end.
Proof.
  intros Hmax Hsz Hty Hbit Hid Hfind Ha Hresp Hg size cap.
  unfold gb_connection_operation_recv.
  replace (_ >? GB_OPERATION_MESSAGE_SIZE_MAX) with false by lia.
  rewrite Hsz, Hty, Hid. unfold bind at 1 2 3 4. simpl.
  replace (_ =? 0) with false by lia. simpl. rewrite Hfind.
  unfold gb_operation_remove, bind, get, set_conn, load_op, load_gbuf,
    store_gbuf. simpl. rewrite Ha. simpl. rewrite Hresp. simpl. rewrite Hg.
  fold size. destruct (size >? transfer_buffer_length b); [done|].
  erewrite recv_copy_eq by (simpl; apply lookup_insert_eq). simpl.
  fold cap. destruct (memcpy _ _ _); [|done].
  by rewrite insert_insert_eq.
Qed.

End Receive.

(** ** Completion *)

Section Completion.
Context {X : Externals}.

Lemma gb_operation_complete_waiters a o w :
  ops w !! a = Some o -> callback o = None ->
  gb_operation_complete a w =
    Ok tt (World (conn w)
             (<[a := GbOperation (id o) (request o) (response o) None
                                 (result o) true]> (ops w))
             (gbufs w) (allocs w) (log w ++ [EvCompleteAll a])).
Proof.
  intros Ha Hcb. unfold gb_operation_complete, bind, load_op.
  rewrite Ha. simpl. by rewrite Hcb.
Qed.

Lemma gb_operation_complete_callback a o cb w :
  ops w !! a = Some o -> callback o = Some cb ->
  gb_operation_complete a w = Ok tt (add_log w [EvCallback cb a]).
Proof.
  intros Ha Hcb. unfold gb_operation_complete, bind, load_op.
  rewrite Ha. simpl. by rewrite Hcb.
Qed.

(** An incoming request on a connection whose protocol has no handler. *)
Lemma recv_work_unhandled a o w :
  ops w !! a = Some o -> response o = None -> callback o = None ->
  lookup_handler (u8 (protocol (conn w))) = None ->
  gb_operation_recv_work a w =
    Ok tt (World (conn w)
             (<[a := GbOperation (id o) (request o) None None
                                 GB_OP_PROTOCOL_BAD true]> (ops w))
             (gbufs w) (allocs w)
             (log w ++ [EvErr "unrecognized protocol"; EvCompleteAll a;
                        EvCompleteAll a; EvFinished (request o)])).
Proof.
  intros Ha Hresp Hcb Hnone.
  unfold gb_operation_recv_work, bind at 1, load_op at 1. rewrite Ha, Hresp.
  simpl. unfold gb_operation_request_handle, bind at 1 2, get. simpl.
  rewrite Hnone. unfold bind at 1 2 3 4, emit, load_op, store_op. simpl.
  rewrite Ha.
  erewrite gb_operation_complete_waiters by (simpl; first [apply lookup_insert_eq|done]).
  unfold bind. erewrite gb_operation_complete_waiters
    by (simpl; first [apply lookup_insert_eq|done]).
  simpl. run_stores. by rewrite Hresp, <- !app_assoc.
Qed.

(** The same request when the protocol has a handler. *)
Lemma recv_work_handled a o h w :
  ops w !! a = Some o -> response o = None -> callback o = None ->
  lookup_handler (u8 (protocol (conn w))) = Some h ->
  gb_operation_recv_work a w =
    Ok tt (World (conn w)
             (<[a := GbOperation (id o) (request o) None None (result o) true]>
                (ops w))
             (gbufs w) (allocs w)
             (log w ++ [EvHandler a; EvCompleteAll a; EvFinished (request o)])).
Proof.
  intros Ha Hresp Hcb Hsome.
  unfold gb_operation_recv_work, bind at 1, load_op at 1. rewrite Ha, Hresp.
  simpl. unfold gb_operation_request_handle, bind at 1 2, get. simpl.
  rewrite Hsome. destruct h. unfold run_handler, emit. simpl.
  unfold bind. erewrite gb_operation_complete_waiters by (simpl; done).
  simpl. unfold load_op. run_stores. by rewrite ?Hresp, <- !app_assoc.
Qed.

(** A response that has arrived for an operation sent without callback. *)
Lemma recv_work_response a o g w :
  ops w !! a = Some o -> response o = Some g -> callback o = None ->
  gb_operation_recv_work a w =
    Ok tt (World (conn w)
             (<[a := GbOperation (id o) (request o) (Some g) None (result o) true]>
                (ops w))
             (gbufs w) (allocs w)
             (log w ++ [EvCompleteAll a; EvFinished (Some g)])).
Proof.
  intros Ha Hresp Hcb.
  unfold gb_operation_recv_work, bind at 1, load_op at 1. rewrite Ha, Hresp.
  simpl. unfold bind. unfold ret at 1.
  erewrite gb_operation_complete_waiters by done.
  simpl. unfold load_op. run_stores. unfold emit. simpl.
  by rewrite Hresp, <- !app_assoc.
Qed.

End Completion.

(** ** Sending *)

Section Send.
Context {X : Externals}.

(** A synchronous send whose wait is interrupted: the buffer is cancelled
    and the caller gets whatever the cancellation returned. *)
Lemma gb_operation_request_send_interrupted fuel w a o g b wait_ret kill_ret :
  registry_ok w ->
  ops w !! a = Some o -> request o = Some g -> gbufs w !! g = Some b ->
  (4 <= length (transfer_buffer b))%nat ->
  a ∉ inorder (pending (conn w)) ->
  (forall x, x ∈ inorder (pending (conn w)) ->
     op_id w x <> u16 (gb_connection_operation_id (op_cycle (conn w))).1) ->
  (height (pending (conn w)) < fuel)%nat ->
  wait_ret < 0 ->
  exists w',
    gb_operation_request_send fuel a None 0 wait_ret kill_ret w = Ok kill_ret w' /\
    log w' = log w ++ [EvSubmit (Some g); EvKill (Some g)].
Proof.
  intros Hok Ha Hreq Hg Hlen Hnotin Hfresh Hfuel Hint.
  unfold gb_operation_request_send.
  unfold bind at 1, load_op at 1. rewrite Ha.
  unfold bind at 1, store_op at 1.
  set (o' := GbOperation (id o) (request o) (response o) None (result o) (completion o)).
  set (w0 := World _ _ _ _ _).
  assert (Hkey : forall x, op_id w0 x = op_id w x).
  { intros x. unfold op_id, w0. simpl.
    destruct (decide (x = a)) as [->|Hne].
    - by rewrite lookup_insert_eq, Ha.
    - by rewrite lookup_insert_ne. }
  destruct (gb_operation_insert_ok fuel w0 a o' g b)
    as (w1 & Hins & _ & _ & _ & _ & _ & Hops1 & Hlog1 & _); try done.
  { unfold registry_ok. simpl. eapply ordered_ext; [|exact Hok]. done. }
  { unfold w0. simpl. apply lookup_insert_eq. }
  { intros x Hx. rewrite Hkey. by apply Hfresh. }
  unfold bind at 1. rewrite Hins.
  unfold bind at 1, load_op at 1. rewrite Hops1. simpl.
  unfold bind at 1, emit at 1. simpl.
  unfold gb_operation_wait. replace (wait_ret <? 0) with true by lia.
  unfold bind, load_op, emit, ret. simpl. rewrite Hops1. simpl.
  eexists. split; [reflexivity|]. simpl.
  by rewrite Hlog1, Hreq, <- app_assoc.
Qed.

End Send.

(** ** The concrete states are reached by running the code *)

Lemma w_created_reached :
  gb_operation_create 1 16 16 w_idle = Ok (Some 0%nat) w_created.
Proof. vm_compute. reflexivity. Qed.

Lemma w_pending_reached :
  gb_operation_request_send 1 0 (Some 7%nat) 0 0 0 w_created = Ok 0 w_pending.
Proof. vm_compute. reflexivity. Qed.

Lemma w_two_reached :
  gb_operation_create 1 16 16 w_pending = Ok (Some 1%nat) w_two.
Proof. vm_compute. reflexivity. Qed.

Lemma w_pending_ok : registry_ok w_pending.
Proof. unfold registry_ok, ordered. simpl. repeat constructor. Qed.

Lemma w_two_ok : registry_ok w_two.
Proof. unfold registry_ok, ordered. simpl. repeat constructor. Qed.

(** * The claims *)

(** ** C1: completion on a routing error *)

(** C1.  The claim asks that the completion notification fires exactly once
    for every operation, also when an inbound request arrives on a
    connection whose protocol has no handler.  On that path
    [gb_operation_request_handle] completes the operation and
    [gb_operation_recv_work] completes it again: for the 8-byte request
    [frame_request8] on the GPIO connection [w_idle], the waiters of the
    new operation 0 are woken twice, and no handler runs. *)
Theorem C1_unrouted_request_notified_twice :
  lookup_handler (u8 (protocol (conn w_idle))) = None /\
  exists w1 w2,
    gb_connection_operation_recv frame_request8 w_idle = Ok tt w1 /\
    new_events w_idle w1 = [EvMemcpy 0 16 8; EvQueueWork 0] /\
    gb_operation_recv_work 0 w1 = Ok tt w2 /\
    new_events w1 w2 =
      [EvErr "unrecognized protocol"; EvCompleteAll 0; EvCompleteAll 0;
       EvFinished (Some 0%nat)] /\
    notifications 0 (log w2) = 2%nat.
Proof.
  split; [reflexivity|]. eexists. eexists.
  split; [vm_compute; reflexivity|].
  split; [reflexivity|].
  split; [vm_compute; reflexivity|].
  split; reflexivity.
Qed.

(** On the sibling paths the notification fires once: a request whose
    protocol has a handler, and a response that has arrived. *)
Lemma routed_request_notified_once `{Externals} a o h w :
  ops w !! a = Some o -> response o = None -> callback o = None ->
  lookup_handler (u8 (protocol (conn w))) = Some h ->
  exists w', gb_operation_recv_work a w = Ok tt w' /\
    notifications a (new_events w w') = 1%nat.
Proof.
  intros Ha Hresp Hcb Hh. eexists. split; [by eapply recv_work_handled|].
  unfold new_events, notifications. simpl.
  rewrite drop_app_length. simpl. by rewrite bool_decide_true.
Qed.

Lemma response_notified_once `{Externals} a o g w :
  ops w !! a = Some o -> response o = Some g -> callback o = None ->
  exists w', gb_operation_recv_work a w = Ok tt w' /\
    notifications a (new_events w w') = 1%nat.
Proof.
  intros Ha Hresp Hcb. eexists. split; [by eapply recv_work_response|].
  unfold new_events, notifications. simpl.
  rewrite drop_app_length. simpl. by rewrite bool_decide_true.
Qed.

(** Whatever the platform: an unrouted request is notified twice. *)
Lemma unrouted_request_notified_twice `{Externals} a o w :
  ops w !! a = Some o -> response o = None -> callback o = None ->
  lookup_handler (u8 (protocol (conn w))) = None ->
  exists w', gb_operation_recv_work a w = Ok tt w' /\
    notifications a (new_events w w') = 2%nat.
Proof.
  intros Ha Hresp Hcb Hh. eexists. split; [by eapply recv_work_unhandled|].
  unfold new_events, notifications. simpl.
  rewrite drop_app_length. simpl. by rewrite !bool_decide_true.
Qed.

(** ** C2: a response larger than its buffer *)

(** Whatever the platform: when the dispatcher drops a response because it
    is larger than the response buffer, the operation it was matched to has
    already been erased from the pending tree. *)
Lemma oversize_response_unregisters `{Externals} data w msg_size type i a o g b :
  registry_ok w ->
  Z.of_nat (length data) <= GB_OPERATION_MESSAGE_SIZE_MAX ->
  hdr_size data = Some msg_size -> hdr_type data = Some type ->
  Z.land type GB_OPERATION_TYPE_RESPONSE <> 0 ->
  hdr_id data = Some i -> gb_operation_find w i = Some a ->
  ops w !! a = Some o -> response o = Some g -> gbufs w !! g = Some b ->
  Z.of_nat (length data) > transfer_buffer_length b ->
  exists w',
    gb_connection_operation_recv data w = Ok tt w' /\
    new_events w w' = [EvErr "recv buffer too small"] /\
    gb_operation_find w' i = None /\
    a ∉ inorder (pending (conn w')).
Proof.
  intros Hok Hmax Hsz Hty Hbit Hid Hfind Ha Hresp Hg Hbig.
  erewrite recv_response by done.
  replace (_ >? _) with true by lia. eexists. split; [reflexivity|].
  apply find_loop_sound in Hfind as [Hin Hkey].
  destruct (gb_operation_remove_ok w a Hok Hin)
    as (w' & Hrm & Hnone & _ & Hino & _).
  unfold gb_operation_remove, bind, get, set_conn in Hrm.
  injection Hrm as <-. simpl in Hino.
  unfold new_events. simpl. rewrite drop_app_length.
  split; [done|]. split.
  - rewrite Hkey in Hnone. unfold gb_operation_find, op_id in *. exact Hnone.
  - unfold unregistered. simpl. rewrite Hino.
    intros Hx. apply list_elem_of_filter in Hx as [Hne _]. by apply Hne.
Qed.

(** C2.  The claim asks that the pending operation stays registered when a
    response longer than its response buffer is dropped.  The dispatcher
    calls [gb_operation_remove] before it compares the lengths: in
    [w_pending] operation 0 is found under identifier 1; after the 32-byte
    response [frame_response32] (buffer: 24 bytes) nothing but the error is
    reported and identifier 1 is no longer found. *)
Theorem C2_oversize_response_unregisters_operation :
  gb_operation_find w_pending 1 = Some 0%nat /\
  request_capacity w_pending 0 = Some 24 /\
  Z.of_nat (length frame_response32) = 32 /\
  exists w',
    gb_connection_operation_recv frame_response32 w_pending = Ok tt w' /\
    new_events w_pending w' = [EvErr "recv buffer too small"] /\
    pending (conn w') = rb_nil /\
    gb_operation_find w' 1 = None.
Proof.
  split; [reflexivity|]. split; [reflexivity|]. split; [reflexivity|].
  eexists. split; [vm_compute; reflexivity|].
  split; [reflexivity|]. split; reflexivity.
Qed.

(** ** C3: the buffer-size guard *)

(** C3.  For a response frame whose identifier is matched to a pending
    operation: when the frame's length exceeds the capacity of the
    operation's response buffer, the dispatcher reports the error and
    returns, no [memcpy] is issued and the buffer holds the bytes it held;
    and whenever a [memcpy] into the response buffer is issued, the
    frame's length is within the capacity. *)
Theorem C3_response_guard `{Externals} data w msg_size type i a o g b :
  hdr_size data = Some msg_size -> hdr_type data = Some type ->
  Z.land type GB_OPERATION_TYPE_RESPONSE <> 0 ->
  hdr_id data = Some i -> gb_operation_find w i = Some a ->
  ops w !! a = Some o -> response o = Some g -> gbufs w !! g = Some b ->
  let size := Z.of_nat (length data) in
  let r := gb_connection_operation_recv data w in
  exists evs,
    log (world_of r) = log w ++ evs /\
    (size > transfer_buffer_length b ->
       r = Ok tt (world_of r) /\
       (exists msg, evs = [EvErr msg]) /\
       transfer_buffer <$> gbufs (world_of r) !! g = Some (transfer_buffer b)) /\
    (forall d c n, EvMemcpy d c n ∈ evs ->
       d = g /\ n = msg_size /\ size <= transfer_buffer_length b).
Proof.
  intros Hsz Hty Hbit Hid Hfind Ha Hresp Hg size r. subst r.
  destruct (decide (size > GB_OPERATION_MESSAGE_SIZE_MAX)) as [Hbig|Hsmall].
  - rewrite recv_too_big by done. eexists. split; [reflexivity|]. split.
    + intros _. split; [done|]. split; [by eexists|]. simpl. by rewrite Hg.
    + intros d c n Hin. apply list_elem_of_singleton in Hin. done.
  - erewrite recv_response by (try done; fold size; lia). fold size.
    destruct (size >? transfer_buffer_length b) eqn:Hcmp.
    + eexists. split; [reflexivity|]. split.
      * intros _. split; [done|]. split; [by eexists|]. simpl.
        by rewrite lookup_insert_eq.
      * intros d c n Hin. apply list_elem_of_singleton in Hin. done.
    + destruct (memcpy (transfer_buffer b) data msg_size) as [buf'|f];
        (eexists; split; [reflexivity|]; split; [lia|]);
        intros d c n Hin; rewrite ?list_elem_of_singleton in Hin;
        rewrite ?elem_of_cons in Hin.
      * destruct Hin as [[= -> -> ->]|[Hin|Hin]]; [split_and!; [done|done|lia]|done|].
        by apply elem_of_nil in Hin.
      * injection Hin as -> -> ->. split_and!; [done|done|lia].
Qed.

(** The guard at work: the 32-byte response to the 24-byte buffer of
    [w_pending] is dropped and the buffer is left as it was. *)
Lemma C3_response_guard_witness :
  Z.of_nat (length frame_response32) > 24 /\
  exists evs,
    log (world_of (gb_connection_operation_recv frame_response32 w_pending)) =
      log w_pending ++ evs /\
    (exists msg, evs = [EvErr msg]) /\
    transfer_buffer <$>
      gbufs (world_of (gb_connection_operation_recv frame_response32 w_pending))
        !! 1%nat =
      Some ([24; 0; 0; 0; 129; 0; 0; 0] ++ replicate 16 0).
Proof.
  split; [vm_compute; reflexivity|].
  destruct (C3_response_guard frame_response32 w_pending 32 129 1 0%nat
              (GbOperation 1 (Some 0%nat) (Some 1%nat) (Some 7%nat) 0 false) 1%nat
              (Gbuf ([24; 0; 0; 0; 129; 0; 0; 0] ++ replicate 16 0) 24 0 0 false 0))
    as (evs & Hlog & Hdrop & _); try reflexivity.
  - vm_compute. discriminate.
  - exists evs. split; [exact Hlog|].
    destruct Hdrop as (_ & Hevs & Hbuf); [vm_compute; reflexivity|].
    split; [exact Hevs|exact Hbuf].
Defined.

(** The guard compares the length delivered; the length copied is the one
    the header declares.  An 8-byte response that declares 5000 bytes passes
    the guard of the 24-byte buffer and the copy overruns it. *)
Lemma response_copy_length_is_declared :
  hdr_size frame_response_declared5000 = Some 5000 /\
  exists w',
    gb_connection_operation_recv frame_response_declared5000 w_pending =
      Fault DstOverrun w' /\
    new_events w_pending w' = [EvMemcpy 1 24 5000].
Proof.
  split; [reflexivity|]. eexists. split; [vm_compute; reflexivity|reflexivity].
Qed.

(** ** C4: frames over the maximum size *)

(** C4, amended.  A frame whose length as delivered exceeds
    [GB_OPERATION_MESSAGE_SIZE_MAX] (4096) is dropped: no operation is
    created and no pending operation is touched.  The test is on the number
    of bytes delivered, not on the [size] field of the header. *)
Theorem C4_long_frame_dropped `{Externals} data w :
  Z.of_nat (length data) > GB_OPERATION_MESSAGE_SIZE_MAX ->
  frame_dropped data w.
Proof.
  intros Hbig. unfold frame_dropped. rewrite recv_too_big by done.
  eexists. eexists. split; [reflexivity|]. done.
Qed.

Lemma C4_long_frame_dropped_witness :
  Z.of_nat (length (replicate 4097 0)) > GB_OPERATION_MESSAGE_SIZE_MAX /\
  frame_dropped (replicate 4097 0) w_pending.
Proof.
  split; [vm_compute; reflexivity|].
  apply C4_long_frame_dropped. vm_compute. reflexivity.
Defined.

(** C4 as stated fails: the 8 bytes of [frame_declared5000] declare a size
    of 5000, over the maximum, and the frame is not dropped.  An operation
    is created for it and linked on the connection's list before the copy
    of 5000 bytes runs off the 8 bytes delivered. *)
Lemma C4_counterexample :
  hdr_size frame_declared5000 = Some 5000 /\
  5000 > GB_OPERATION_MESSAGE_SIZE_MAX /\
  ~ frame_dropped frame_declared5000 w_idle /\
  exists w',
    gb_connection_operation_recv frame_declared5000 w_idle = Fault SrcOverrun w' /\
    operations (conn w_idle) = [] /\
    operations (conn w') = [0%nat] /\
    request_capacity w' 0 = Some 5008.
Proof.
  assert (Hrun : exists w',
    gb_connection_operation_recv frame_declared5000 w_idle = Fault SrcOverrun w' /\
    operations (conn w_idle) = [] /\
    operations (conn w') = [0%nat] /\
    request_capacity w' 0 = Some 5008).
  { eexists. split; [vm_compute; reflexivity|]. split; [reflexivity|].
    split; reflexivity. }
  split; [reflexivity|]. split; [reflexivity|]. split; [|exact Hrun].
  intros (w' & msg & Hrecv & _). destruct Hrun as (w'' & Hfault & _).
  rewrite Hfault in Hrecv. discriminate.
Qed.

(** ** C5: an interrupted synchronous send *)

(** C5.  The claim asks that an interrupted wait cancels the request buffer
    and that the interruption is what the caller gets.  The buffer is
    cancelled, but [gb_operation_wait] then overwrites [ret] with the
    result of [greybus_kill_gbuf]: sending operation 0 of [w_created]
    synchronously, with the wait interrupted ([-ERESTARTSYS]) and the
    cancellation returning 0, returns 0 to the caller. *)
Theorem C5_interrupted_wait_returns_cancel_result :
  exists w',
    gb_operation_request_send 1 0 None 0 (- ERESTARTSYS) 0 w_created = Ok 0 w' /\
    new_events w_created w' = [EvSubmit (Some 0%nat); EvKill (Some 0%nat)].
Proof. eexists. split; [vm_compute; reflexivity|reflexivity]. Qed.

(** ** C6: gb_operation_create and allocation failure *)

(** C6.  [gb_operation_create] returns.  When an allocation fails it
    returns the null pointer, every object and buffer it had allocated is
    released (the stores are what they were) and the connection, with its
    operation list, is untouched.  Otherwise the new operation has a live
    request buffer of [request_size] plus header bytes, it has a live
    response buffer exactly when [response_size] is not zero, and it is at
    the tail of the connection's operation list. *)
Theorem C6_create_allocation type rq rs w :
  0 <= rq -> rq + sizeof_hdr < 2 ^ 64 ->
  0 <= rs -> rs + sizeof_hdr < 2 ^ 64 ->
  exists r w',
    gb_operation_create type rq rs w = Ok r w' /\
    log w' = log w /\
    if create_fails rs w then
      r = None /\ ops w' = ops w /\ gbufs w' = gbufs w /\ conn w' = conn w
    else
      exists a o g bq,
        r = Some a /\ ops w !! a = None /\ ops w' !! a = Some o /\
        request o = Some g /\ gbufs w !! g = None /\
        gbufs w' !! g = Some bq /\
        transfer_buffer_length bq = rq + sizeof_hdr /\
        operations (conn w') = operations (conn w) ++ [a] /\
        (rs = 0 -> response o = None /\
                   dom (gbufs w') = {[g]} ∪ dom (gbufs w)) /\
        (rs <> 0 -> exists g' bs,
           response o = Some g' /\ g' <> g /\ gbufs w !! g' = None /\
           gbufs w' !! g' = Some bs /\
           transfer_buffer_length bs = rs + sizeof_hdr).
Proof.
  intros Hrq Hrqmax Hrs Hrsmax. unfold create_fails.
  destruct (answer 0 w) eqn:H0; simpl.
  2:{ rewrite gb_operation_create_no_object by done.
      eexists. eexists. split; [reflexivity|]. done. }
  destruct (answer 1 w) eqn:H1; simpl.
  2:{ rewrite gb_operation_create_no_request by done.
      eexists. eexists. split; [reflexivity|]. done. }
  destruct (rs =? 0) eqn:Hz; simpl.
  - assert (rs = 0) as -> by lia.
    rewrite gb_operation_create_incoming by done.
    eexists. eexists. split; [reflexivity|]. split; [done|].
    eexists. eexists. eexists. eexists. simpl.
    split_and!; try done.
    + apply fresh_gmap_None.
    + apply lookup_insert_eq.
    + done.
    + apply fresh_gmap_None.
    + apply lookup_insert_eq.
    + done.
    + intros _. split; [done|]. apply dom_insert_L.
  - destruct (answer 2 w) eqn:H2; simpl.
    2:{ rewrite gb_operation_create_no_response by (try done; lia).
        eexists. eexists. split; [reflexivity|]. done. }
    rewrite gb_operation_create_outgoing by (try done; lia).
    eexists. eexists. split; [reflexivity|]. split; [done|].
    set (g := fresh (dom (gbufs w))).
    set (bq := with_actual_length _ _).
    set (g' := fresh (dom (<[g := bq]> (gbufs w)))).
    assert (Hg' : <[g := bq]> (gbufs w) !! g' = None) by apply fresh_gmap_None.
    assert (g' <> g) as Hne.
    { intros Heq. rewrite Heq, lookup_insert_eq in Hg'. discriminate. }
    rewrite lookup_insert_ne in Hg' by done.
    exists (fresh (dom (ops w))).
    eexists. exists g, bq. simpl.
    split_and!; try done.
    + apply fresh_gmap_None.
    + apply lookup_insert_eq.
    + done.
    + apply fresh_gmap_None.
    + rewrite lookup_insert_ne by done. apply lookup_insert_eq.
    + lia.
    + intros _. eexists. eexists. split_and!; try done.
      * apply lookup_insert_eq.
      * done.
Qed.

(** The response buffer cannot be had: the request buffer and the operation
    object are given back and the list stays empty. *)
Lemma C6_create_allocation_witness :
  let w := World (conn w_idle) ∅ ∅ [true; true; false] [] in
  exists w',
    gb_operation_create 1 16 16 w = Ok None w' /\
    ops w' = ∅ /\ gbufs w' = ∅ /\ operations (conn w') = [].
Proof.
  intros w.
  destruct (C6_create_allocation 1 16 16 w) as (r & w' & Hrun & _ & Hcase);
    [lia|vm_compute; reflexivity|lia|vm_compute; reflexivity|].
  change (create_fails 16 w) with true in Hcase.
  destruct Hcase as (-> & Hops & Hgb & Hconn).
  exists w'. split; [exact Hrun|]. rewrite Hops, Hgb, Hconn. done.
Defined.

(** ** C7: insert, find, remove *)

(** C7.  In a registry whose identifiers strictly increase along the tree
    (the search order, hence pairwise distinct):
    - once [gb_operation_insert] has given an operation an identifier that
      no pending operation holds, and the fuel exceeds the height of the
      tree, the call returns and [gb_operation_find] of that identifier is
      that operation;
    - after [gb_operation_remove] of a pending operation,
      [gb_operation_find] of its identifier is null;
    - [gb_operation_find] of an identifier that no pending operation holds
      is null. *)
Theorem C7_insert_find_remove `{Externals} w :
  registry_ok w ->
  (forall fuel a o g b,
     ops w !! a = Some o -> request o = Some g -> gbufs w !! g = Some b ->
     (4 <= length (transfer_buffer b))%nat ->
     a ∉ inorder (pending (conn w)) ->
     (forall x, x ∈ inorder (pending (conn w)) ->
        op_id w x <> u16 (gb_connection_operation_id (op_cycle (conn w))).1) ->
     (height (pending (conn w)) < fuel)%nat ->
     exists w',
       gb_operation_insert fuel a w = Ok tt w' /\
       op_id w' a = u16 (gb_connection_operation_id (op_cycle (conn w))).1 /\
       hdr_id <$> (transfer_buffer <$> gbufs w' !! g) = Some (Some (op_id w' a)) /\
       gb_operation_find w' (op_id w' a) = Some a /\
       registry_ok w') /\
  (forall a,
     a ∈ inorder (pending (conn w)) ->
     exists w',
       gb_operation_remove a w = Ok tt w' /\
       gb_operation_find w' (op_id w a) = None /\
       registry_ok w') /\
  (forall i,
     (forall x, x ∈ inorder (pending (conn w)) -> op_id w x <> i) ->
     gb_operation_find w i = None).
Proof.
  intros Hok. split_and!.
  - intros fuel a o g b Ha Hreq Hg Hlen Hnotin Hfresh Hfuel.
    destruct (gb_operation_insert_ok fuel w a o g b)
      as (w' & Hins & Hid & Hfind & Hok' & _ & _ & _ & _ & Hhdr); try done.
    by exists w'.
  - intros a Hin.
    destruct (gb_operation_remove_ok w a Hok Hin) as (w' & Hrm & Hnone & Hok' & _).
    by exists w'.
  - intros i Habs. by apply find_loop_absent.
Qed.

(** Two operations: 0 is pending under identifier 1, 1 gets identifier 2
    and is found under it; removing 0 makes identifier 1 unknown. *)
Lemma C7_insert_find_remove_witness :
  registry_ok w_two /\
  (exists w',
     gb_operation_insert 2 1 w_two = Ok tt w' /\
     gb_operation_find w' 2 = Some 1%nat /\ registry_ok w') /\
  (exists w',
     gb_operation_remove 0 w_two = Ok tt w' /\ gb_operation_find w' 1 = None) /\
  gb_operation_find w_two 9 = None.
Proof.
  assert (Hok : registry_ok w_two)
    by (unfold registry_ok, ordered; simpl; repeat constructor).
  split; [exact Hok|].
  destruct (C7_insert_find_remove w_two Hok) as (Hins & Hrm & Habs).
  split_and!.
  - edestruct (Hins 2%nat 1%nat) as (w' & Hrun & Hid & _ & Hfind & Hok').
    + vm_compute. reflexivity.
    + reflexivity.
    + vm_compute. reflexivity.
    + vm_compute. lia.
    + simpl. rewrite list_elem_of_singleton. lia.
    + intros x Hx. simpl in Hx. apply list_elem_of_singleton in Hx as ->.
      vm_compute. discriminate.
    + simpl. lia.
    + exists w'. split; [exact Hrun|]. split; [|exact Hok'].
      rewrite Hid in Hfind. exact Hfind.
  - destruct (Hrm 0%nat) as (w' & Hrun & Hnone & _).
    + simpl. by apply list_elem_of_singleton.
    + exists w'. split; [exact Hrun|exact Hnone].
  - apply Habs. intros x Hx. simpl in Hx.
    apply list_elem_of_singleton in Hx as ->. vm_compute. discriminate.
Defined.

(** ** C8: the header of a created buffer *)

(** C8, amended.  When the allocation succeeds, the buffer
    [gb_operation_gbuf_create] returns for a payload of [size] bytes and a
    type byte has a header whose [id] is zero and whose [type] is the byte
    given (so the response bit is clear when the caller's type has it
    clear); its [size] field is the header size plus the payload size cut to
    16 bits, which is the sum itself whenever the sum is below 65536. *)
Theorem C8_created_header operation type size data_out w :
  0 <= type < 256 -> 0 <= size -> size + sizeof_hdr < 2 ^ 64 ->
  answer 0 w = true ->
  exists g b w',
    gb_operation_gbuf_create operation type size data_out w = Ok (Some g) w' /\
    gbufs w !! g = None /\ gbufs w' !! g = Some b /\
    transfer_buffer_length b = sizeof_hdr + size /\
    hdr_size (transfer_buffer b) = Some ((sizeof_hdr + size) mod 65536) /\
    (sizeof_hdr + size < 65536 ->
       hdr_size (transfer_buffer b) = Some (sizeof_hdr + size)) /\
    hdr_id (transfer_buffer b) = Some 0 /\
    hdr_type (transfer_buffer b) = Some type.
Proof.
  intros Hty Hsz Hmax Hans.
  rewrite gb_operation_gbuf_create_ok by (by rewrite ?alloc_answer_0).
  eexists. eexists. eexists. split; [reflexivity|].
  split; [apply fresh_gmap_None|]. split; [apply lookup_insert_eq|].
  assert (Hsize : hdr_size (transfer_buffer (framed_gbuf operation type size data_out))
                  = Some ((sizeof_hdr + size) mod 65536)).
  { pose proof (le16_roundtrip (size + sizeof_hdr)) as Hrt.
    unfold hdr_size, le16_at, framed_gbuf, cpu_to_le16 in *. simpl in *.
    rewrite Hrt. unfold u16. by rewrite (Z.add_comm size). }
  split_and!.
  - simpl. lia.
  - exact Hsize.
  - intros Hfit. rewrite Hsize.
    by rewrite Z.mod_small by (unfold sizeof_hdr in *; lia).
  - reflexivity.
  - unfold hdr_type, u8_at, framed_gbuf, u8. simpl.
    by rewrite !(Z.mod_small type 256) by lia.
Qed.

Lemma C8_created_header_witness :
  exists g b w',
    gb_operation_gbuf_create 0 1 16 true w_idle = Ok (Some g) w' /\
    gbufs w' !! g = Some b /\
    hdr_size (transfer_buffer b) = Some 24 /\
    hdr_id (transfer_buffer b) = Some 0 /\
    hdr_type (transfer_buffer b) = Some 1.
Proof.
  destruct (C8_created_header 0 1 16 true w_idle)
    as (g & b & w' & Hrun & _ & Hb & _ & _ & Hsize & Hid & Hty);
    [lia|lia|vm_compute; reflexivity|reflexivity|].
  exists g, b, w'. split; [exact Hrun|]. split; [exact Hb|].
  split; [apply Hsize; vm_compute; reflexivity|]. split; [exact Hid|exact Hty].
Defined.

(** C8 as stated fails: for a payload of 65528 bytes the header and the
    payload make 65536 bytes, and the 16-bit [size] field reads 0. *)
Lemma C8_counterexample :
  sizeof_hdr + 65528 = 65536 /\
  exists g b w',
    gb_operation_gbuf_create 0 1 65528 true w_idle = Ok (Some g) w' /\
    gbufs w' !! g = Some b /\
    transfer_buffer_length b = 65536 /\
    hdr_size (transfer_buffer b) = Some 0 /\
    hdr_size (transfer_buffer b) <> Some (sizeof_hdr + 65528).
Proof.
  split; [reflexivity|].
  rewrite gb_operation_gbuf_create_ok by (vm_compute; first [reflexivity|discriminate]).
  eexists. eexists. eexists. split; [reflexivity|].
  split; [apply lookup_insert_eq|].
  split; [reflexivity|]. split; [reflexivity|]. discriminate.
Qed.

(** ** C9 and C10: the operation made for an incoming request *)

(** What the dispatcher has done by the time it stops, for a request frame
    of at most the maximum size whose two allocations succeed. *)
Lemma recv_request_world `{Externals} data w msg_size type :
  Z.of_nat (length data) <= GB_OPERATION_MESSAGE_SIZE_MAX ->
  hdr_size data = Some msg_size -> hdr_type data = Some type ->
  Z.land type GB_OPERATION_TYPE_RESPONSE = 0 ->
  answer 0 w = true -> answer 1 w = true ->
  let size := Z.of_nat (length data) in
  let r := gb_connection_operation_recv data w in
  let a := fresh (dom (ops w)) in
  let g := fresh (dom (gbufs w)) in
  exists b,
    (r = Ok tt (world_of r) /\ msg_size <= size \/
     r = Fault SrcOverrun (world_of r) /\ size < msg_size) /\
    conn (world_of r) =
      GbConnection (protocol (conn w)) (op_cycle (conn w)) (pending (conn w))
        (operations (conn w) ++ [a]) /\
    ops (world_of r) = <[a := GbOperation 0 (Some g) None None 0 false]> (ops w) /\
    gbufs (world_of r) = <[g := b]> (gbufs w) /\
    transfer_buffer_length b = msg_size + sizeof_hdr /\
    Z.of_nat (length (transfer_buffer b)) = msg_size + sizeof_hdr /\
    log (world_of r) =
      log w ++ (if msg_size =? size then [] else [EvWarn]) ++
      EvMemcpy g (msg_size + sizeof_hdr) msg_size ::
      (if msg_size <=? size then [EvQueueWork a] else []).
Proof.
  intros Hmax Hsz Hty Hbit H0 H1 size r a g. subst r.
  pose proof (le16_at_range _ _ _ Hsz) as Hrange.
  rewrite (recv_request data w msg_size type) by done. fold size a g.
  destruct (msg_size <=? size) eqn:Hle; eexists; simpl;
    (split_and!; [first [left; split; [reflexivity|lia]
                        |right; split; [reflexivity|lia]]| ..]);
    try reflexivity.
  - cbn [transfer_buffer].
    rewrite length_app, length_take, length_drop. simpl length.
    rewrite length_replicate. unfold sizeof_hdr, size in *. lia.
  - simpl. rewrite length_replicate. unfold sizeof_hdr. lia.
Qed.

(** C9, amended.  For a frame of at most the maximum size whose response
    bit is clear, and when the allocations succeed, the dispatcher creates
    one new operation on the connection's list, with no response buffer,
    and allocates one buffer, its request buffer, whose capacity is the
    declared [size] field plus the header size. *)
Theorem C9_incoming_request_operation `{Externals} data w msg_size type :
  Z.of_nat (length data) <= GB_OPERATION_MESSAGE_SIZE_MAX ->
  hdr_size data = Some msg_size -> hdr_type data = Some type ->
  Z.land type GB_OPERATION_TYPE_RESPONSE = 0 ->
  answer 0 w = true -> answer 1 w = true ->
  let w' := world_of (gb_connection_operation_recv data w) in
  exists a o g,
    ops w !! a = None /\ ops w' !! a = Some o /\
    operations (conn w') = operations (conn w) ++ [a] /\
    request o = Some g /\ response o = None /\
    gbufs w !! g = None /\
    dom (gbufs w') = {[g]} ∪ dom (gbufs w) /\
    request_capacity w' a = Some (msg_size + sizeof_hdr).
Proof.
  intros Hmax Hsz Hty Hbit H0 H1 w'. subst w'.
  destruct (recv_request_world data w msg_size type)
    as (b & _ & Hconn & Hops & Hgb & Hcap & _); try done.
  eexists. eexists. eexists. unfold request_capacity.
  rewrite Hconn, Hops, Hgb. simpl. rewrite !lookup_insert_eq. simpl.
  rewrite lookup_insert_eq. simpl. rewrite Hcap.
  split_and!; try done.
  - apply fresh_gmap_None.
  - apply fresh_gmap_None.
  - apply dom_insert_L.
Qed.

Lemma C9_incoming_request_operation_witness :
  let w' := world_of (gb_connection_operation_recv frame_request8 w_idle) in
  exists a, operations (conn w') = [a] /\ request_capacity w' a = Some 16.
Proof.
  intros w'.
  destruct (C9_incoming_request_operation frame_request8 w_idle 8 1)
    as (a & o & g & _ & _ & Hlist & _ & _ & _ & _ & Hcap);
    [vm_compute; discriminate|reflexivity|reflexivity|reflexivity|reflexivity
    |reflexivity|].
  exists a. split; [exact Hlist|exact Hcap].
Defined.

(** C9 as stated fails: [frame_request8] declares a size of 8 bytes and
    the request buffer of the operation made for it has 16. *)
Lemma C9_counterexample :
  hdr_size frame_request8 = Some 8 /\
  hdr_type frame_request8 = Some 1 /\
  exists w',
    gb_connection_operation_recv frame_request8 w_idle = Ok tt w' /\
    operations (conn w') = [0%nat] /\
    request_capacity w' 0 = Some 16 /\
    request_capacity w' 0 <> Some 8.
Proof.
  split; [reflexivity|]. split; [reflexivity|].
  eexists. split; [vm_compute; reflexivity|].
  split; [reflexivity|]. split; [reflexivity|]. discriminate.
Qed.

(** C10.  For a request frame the dispatcher accepts (at most the maximum
    size, response bit clear, allocations successful) one [memcpy] is
    issued: of [msg_size] bytes, the declared size, into the new request
    buffer, whose capacity is [msg_size] plus the header size.  The copy
    stays inside the destination: the run never faults on a destination
    overrun, and it ends normally when the frame holds the bytes its header
    declares. *)
Theorem C10_request_copy_fits `{Externals} data w msg_size type :
  Z.of_nat (length data) <= GB_OPERATION_MESSAGE_SIZE_MAX ->
  hdr_size data = Some msg_size -> hdr_type data = Some type ->
  Z.land type GB_OPERATION_TYPE_RESPONSE = 0 ->
  answer 0 w = true -> answer 1 w = true ->
  let size := Z.of_nat (length data) in
  let r := gb_connection_operation_recv data w in
  exists g b evs,
    gbufs w !! g = None /\ gbufs (world_of r) !! g = Some b /\
    Z.of_nat (length (transfer_buffer b)) = msg_size + sizeof_hdr /\
    log (world_of r) = log w ++ evs /\
    EvMemcpy g (msg_size + sizeof_hdr) msg_size ∈ evs /\
    (forall d c n, EvMemcpy d c n ∈ evs ->
       d = g /\ c = msg_size + sizeof_hdr /\ n = msg_size /\ 0 <= n <= c) /\
    (forall w', r <> Fault DstOverrun w') /\
    (msg_size <= size -> r = Ok tt (world_of r)).
Proof.
  intros Hmax Hsz Hty Hbit H0 H1 size r.
  pose proof (le16_at_range _ _ _ Hsz) as Hrange.
  destruct (recv_request_world data w msg_size type)
    as (b & Hres & _ & _ & Hgb & _ & Hlen & Hlog); try done.
  fold size r in Hres, Hgb, Hlog.
  exists (fresh (dom (gbufs w))), b. eexists.
  split; [apply fresh_gmap_None|].
  split; [rewrite Hgb; apply lookup_insert_eq|].
  split; [exact Hlen|]. split; [exact Hlog|]. split_and!.
  - apply elem_of_app. right. by left.
  - intros d c n Hin. apply elem_of_app in Hin as [Hin|Hin].
    + destruct (msg_size =? size).
      * by apply elem_of_nil in Hin.
      * by apply list_elem_of_singleton in Hin.
    + apply elem_of_cons in Hin as [[= -> -> ->]|Hin].
      * unfold sizeof_hdr. split_and!; try done; lia.
      * destruct (msg_size <=? size).
        -- by apply list_elem_of_singleton in Hin.
        -- by apply elem_of_nil in Hin.
  - intros w' Heq. destruct Hres as [[Hr _]|[Hr _]]; rewrite Hr in Heq; discriminate.
  - intros Hle. destruct Hres as [[Hr _]|[_ Hlt]]; [exact Hr|lia].
Qed.

Lemma C10_request_copy_fits_witness :
  exists g b,
    gbufs (world_of (gb_connection_operation_recv frame_request8 w_idle)) !! g
      = Some b /\
    Z.of_nat (length (transfer_buffer b)) = 16 /\
    EvMemcpy g 16 8 ∈
      log (world_of (gb_connection_operation_recv frame_request8 w_idle)) /\
    gb_connection_operation_recv frame_request8 w_idle =
      Ok tt (world_of (gb_connection_operation_recv frame_request8 w_idle)).
Proof.
  destruct (C10_request_copy_fits frame_request8 w_idle 8 1)
    as (g & b & evs & _ & Hb & Hlen & Hlog & Hin & _ & _ & Hok);
    [vm_compute; discriminate|reflexivity|reflexivity|reflexivity|reflexivity
    |reflexivity|].
  exists g, b. split; [exact Hb|]. split; [exact Hlen|]. split.
  - rewrite Hlog. apply elem_of_app. right. exact Hin.
  - apply Hok. vm_compute. discriminate.
Defined.

(** * Further properties of [operation.c] *)

(** ** Lookups that an insertion or a removal leaves alone *)

(** In two ordered trees that hold the same operations under identifier
    [j], the search for [j] ends the same way. *)
Lemma find_loop_agree key key' t t' j :
  ordered key t -> ordered key' t' ->
  (forall x, x ∈ inorder t /\ key x = j <-> x ∈ inorder t' /\ key' x = j) ->
  find_loop key t j = find_loop key' t' j.
Proof.
  intros Hord Hord' Hsame.
  destruct (find_loop key t j) as [x|] eqn:Hf.
  - apply find_loop_sound in Hf. apply Hsame in Hf as [Hin <-].
    symmetry. by apply find_loop_member.
  - destruct (find_loop key' t' j) as [x|] eqn:Hf'; [|done].
    apply find_loop_sound in Hf'. apply Hsame in Hf' as [Hin <-].
    by rewrite find_loop_member in Hf.
Qed.

(** Every identifier other than the one just assigned is looked up after
    [gb_operation_insert] as it was before. *)
Theorem insert_keeps_other_lookups `{Externals} fuel w a o g b j :
  registry_ok w ->
  ops w !! a = Some o -> request o = Some g -> gbufs w !! g = Some b ->
  (4 <= length (transfer_buffer b))%nat ->
  a ∉ inorder (pending (conn w)) ->
  (forall x, x ∈ inorder (pending (conn w)) ->
     op_id w x <> u16 (gb_connection_operation_id (op_cycle (conn w))).1) ->
  (height (pending (conn w)) < fuel)%nat ->
  j <> u16 (gb_connection_operation_id (op_cycle (conn w))).1 ->
  exists w',
    gb_operation_insert fuel a w = Ok tt w' /\
    gb_operation_find w' j = gb_operation_find w j.
Proof.
  intros Hok Ha Hreq Hg Hlen Hnotin Hfresh Hfuel Hj.
  destruct (gb_operation_insert_ok fuel w a o g b)
    as (w' & Hins & Hid & _ & Hok' & Hkeys & Hperm & _); try done.
  exists w'. split; [done|]. symmetry.
  apply find_loop_agree; [done|done|]. intros x. rewrite Hperm, elem_of_cons.
  split.
  - intros [Hin Hk]. split; [by right|]. rewrite Hkeys; [done|].
    intros ->. done.
  - intros [[->|Hin] Hk]; [congruence|]. split; [done|].
    rewrite <- Hkeys; [done|]. intros ->. done.
Qed.

Lemma insert_keeps_other_lookups_witness :
  exists w',
    gb_operation_insert 2 1 w_two = Ok tt w' /\
    gb_operation_find w' 1 = Some 0%nat.
Proof.
  edestruct (insert_keeps_other_lookups 2%nat w_two 1%nat) with (j := 1)
    as (w' & Hrun & Hfind).
  - unfold registry_ok, ordered. simpl. repeat constructor.
  - vm_compute. reflexivity.
  - reflexivity.
  - vm_compute. reflexivity.
  - vm_compute. lia.
  - simpl. rewrite list_elem_of_singleton. lia.
  - intros x Hx. simpl in Hx. apply list_elem_of_singleton in Hx as ->.
    vm_compute. discriminate.
  - simpl. lia.
  - vm_compute. discriminate.
  - exists w'. split; [exact Hrun|]. rewrite Hfind. reflexivity.
Defined.

(** Every identifier other than that of the operation removed is looked up
    after [gb_operation_remove] as it was before. *)
Theorem remove_keeps_other_lookups `{Externals} w a j :
  registry_ok w -> a ∈ inorder (pending (conn w)) -> j <> op_id w a ->
  exists w',
    gb_operation_remove a w = Ok tt w' /\
    gb_operation_find w' j = gb_operation_find w j.
Proof.
  intros Hok Hin Hj.
  destruct (gb_operation_remove_ok w a Hok Hin)
    as (w' & Hrm & _ & Hok' & Hino & Hops & _).
  exists w'. split; [done|]. unfold gb_operation_find.
  assert (Hkey : forall x, op_id w' x = op_id w x)
    by (intros x; unfold op_id; by rewrite Hops).
  symmetry. apply find_loop_agree; [done|done|]. intros x.
  rewrite Hino, list_elem_of_filter, Hkey. split.
  - intros [Hx Hk]. split; [|done]. split; [|done]. intros ->. congruence.
  - intros [[_ Hx] Hk]. done.
Qed.

Lemma remove_keeps_other_lookups_witness :
  gb_operation_find w_both 2 = Some 1%nat /\
  exists w',
    gb_operation_remove 0 w_both = Ok tt w' /\
    gb_operation_find w' 2 = Some 1%nat.
Proof.
  split; [reflexivity|].
  destruct (remove_keeps_other_lookups w_both 0%nat 2) as (w' & Hrun & Hfind).
  - unfold registry_ok, ordered. simpl. repeat constructor.
  - simpl. apply elem_of_cons. by left.
  - vm_compute. discriminate.
  - exists w'. split; [exact Hrun|]. rewrite Hfind. reflexivity.
Defined.

(** ** Responses *)

(** A response whose identifier no pending operation holds is dropped: the
    error is reported and the connection, the operations and the buffers
    are what they were. *)
Theorem unknown_response_dropped `{Externals} data w msg_size type i :
  Z.of_nat (length data) <= GB_OPERATION_MESSAGE_SIZE_MAX ->
  hdr_size data = Some msg_size -> hdr_type data = Some type ->
  Z.land type GB_OPERATION_TYPE_RESPONSE <> 0 ->
  hdr_id data = Some i ->
  (forall x, x ∈ inorder (pending (conn w)) -> op_id w x <> i) ->
  gb_connection_operation_recv data w =
    Ok tt (add_log w [EvErr "operation not found"]).
Proof.
  intros Hmax Hsz Hty Hbit Hid Habs.
  eapply recv_not_found; try done. by apply find_loop_absent.
Qed.

Lemma unknown_response_dropped_witness :
  gb_connection_operation_recv frame_response_unknown w_pending =
    Ok tt (add_log w_pending [EvErr "operation not found"]).
Proof.
  apply (unknown_response_dropped frame_response_unknown w_pending 8 129 9);
    try reflexivity.
  - vm_compute. discriminate.
  - vm_compute. discriminate.
  - intros x Hx. simpl in Hx. apply list_elem_of_singleton in Hx as ->.
    vm_compute. discriminate.
Defined.

Lemma recv_response_fits `{Externals} data w msg_size type i a o g b :
  registry_ok w ->
  Z.of_nat (length data) <= GB_OPERATION_MESSAGE_SIZE_MAX ->
  hdr_size data = Some msg_size -> hdr_type data = Some type ->
  Z.land type GB_OPERATION_TYPE_RESPONSE <> 0 ->
  hdr_id data = Some i ->
  a ∈ inorder (pending (conn w)) -> op_id w a = i ->
  ops w !! a = Some o -> response o = Some g -> gbufs w !! g = Some b ->
  Z.of_nat (length (transfer_buffer b)) = transfer_buffer_length b ->
  Z.of_nat (length data) <= transfer_buffer_length b ->
  msg_size <= Z.of_nat (length data) ->
  exists w' b',
    gb_connection_operation_recv data w = Ok tt w' /\
    new_events w w' =
      [EvMemcpy g (transfer_buffer_length b) msg_size; EvQueueWork a] /\
    gb_operation_find w' i = None /\
    ops w' = ops w /\
    gbufs w' = <[g := b']> (gbufs w) /\
    take (Z.to_nat msg_size) (transfer_buffer b') = take (Z.to_nat msg_size) data /\
    drop (Z.to_nat msg_size) (transfer_buffer b') =
      drop (Z.to_nat msg_size) (transfer_buffer b) /\
    actual_length b' = msg_size /\ status b' = GB_OP_SUCCESS /\
    transfer_buffer_length b' = transfer_buffer_length b.
Proof.
  intros Hok Hmax Hsz Hty Hbit Hid Hin Hkey Ha Hresp Hg Hcap Hfit Hwhole.
  pose proof (le16_at_range _ _ _ Hsz) as Hrange.
  assert (Hfind : gb_operation_find w i = Some a).
  { rewrite <- Hkey. by apply find_loop_member. }
  erewrite recv_response by done.
  replace (_ >? transfer_buffer_length b) with false by lia.
  unfold memcpy. rewrite Hcap.
  replace (msg_size >? transfer_buffer_length b) with false by lia.
  replace (msg_size >? Z.of_nat (length data)) with false by lia.
  eexists. eexists. split; [reflexivity|].
  destruct (gb_operation_remove_ok w a Hok Hin)
    as (w1 & Hrm & Hnone & _).
  unfold gb_operation_remove, bind, get, set_conn in Hrm.
  injection Hrm as <-.
  assert (Hlt : length (take (Z.to_nat msg_size) data) = Z.to_nat msg_size)
    by (rewrite length_take; lia).
  unfold new_events. simpl. rewrite drop_app_length.
  split_and!; try done.
  - rewrite Hkey in Hnone. exact Hnone.
  - cbn [transfer_buffer]. by rewrite take_app_length'.
  - cbn [transfer_buffer]. by rewrite drop_app_length'.
Qed.

(** A response that fits: for a frame that holds the bytes its header
    declares, matched to a pending operation whose response buffer is large
    enough, the dispatcher unregisters the operation, copies the declared
    bytes to the start of the response buffer and leaves the rest of the
    buffer, records the length, marks the buffer successful and queues the
    operation's work once. *)
Theorem response_delivered `{Externals} data w msg_size type i a o g b :
  registry_ok w ->
  Z.of_nat (length data) <= GB_OPERATION_MESSAGE_SIZE_MAX ->
  hdr_size data = Some msg_size -> hdr_type data = Some type ->
  Z.land type GB_OPERATION_TYPE_RESPONSE <> 0 ->
  hdr_id data = Some i ->
  a ∈ inorder (pending (conn w)) -> op_id w a = i ->
  ops w !! a = Some o -> response o = Some g -> gbufs w !! g = Some b ->
  Z.of_nat (length (transfer_buffer b)) = transfer_buffer_length b ->
  Z.of_nat (length data) <= transfer_buffer_length b ->
  msg_size <= Z.of_nat (length data) ->
  exists w' b',
    gb_connection_operation_recv data w = Ok tt w' /\
    new_events w w' =
      [EvMemcpy g (transfer_buffer_length b) msg_size; EvQueueWork a] /\
    gb_operation_find w' i = None /\
    ops w' = ops w /\
    gbufs w' = <[g := b']> (gbufs w) /\
    take (Z.to_nat msg_size) (transfer_buffer b') = take (Z.to_nat msg_size) data /\
    drop (Z.to_nat msg_size) (transfer_buffer b') =
      drop (Z.to_nat msg_size) (transfer_buffer b) /\
    actual_length b' = msg_size /\ status b' = GB_OP_SUCCESS /\
    transfer_buffer_length b' = transfer_buffer_length b.
Proof. apply recv_response_fits. Qed.

Lemma response_delivered_witness :
  exists w' b',
    gb_connection_operation_recv frame_response24 w_pending = Ok tt w' /\
    gb_operation_find w' 1 = None /\
    gbufs w' !! 1%nat = Some b' /\
    take 24 (transfer_buffer b') = frame_response24.
Proof.
  destruct (response_delivered frame_response24 w_pending 24 129 1 0%nat
              (GbOperation 1 (Some 0%nat) (Some 1%nat) (Some 7%nat) 0 false) 1%nat
              (Gbuf ([24; 0; 0; 0; 129; 0; 0; 0] ++ replicate 16 0) 24 0 0 false 0))
    as (w' & b' & Hrun & _ & Hnone & _ & Hgb & Htake & _).
  - unfold registry_ok, ordered. simpl. repeat constructor.
  - vm_compute. discriminate.
  - reflexivity.
  - reflexivity.
  - vm_compute. discriminate.
  - reflexivity.
  - simpl. by apply list_elem_of_singleton.
  - reflexivity.
  - reflexivity.
  - reflexivity.
  - reflexivity.
  - reflexivity.
  - vm_compute. discriminate.
  - vm_compute. discriminate.
  - exists w', b'. split; [exact Hrun|]. split; [exact Hnone|].
    split; [rewrite Hgb; apply lookup_insert_eq|].
    change 24%nat with (Z.to_nat 24). rewrite Htake. reflexivity.
Defined.

(** The deferred work of an operation whose response has arrived and that
    was sent with a callback. *)
Lemma recv_work_response_callback `{Externals} a o g cb w :
  ops w !! a = Some o -> response o = Some g -> callback o = Some cb ->
  gb_operation_recv_work a w =
    Ok tt (add_log w [EvCallback cb a; EvFinished (Some g)]).
Proof.
  intros Ha Hresp Hcb.
  unfold gb_operation_recv_work, bind at 1, load_op at 1. rewrite Ha, Hresp.
  simpl. unfold bind. unfold ret at 1.
  erewrite gb_operation_complete_callback by done.
  unfold load_op, add_log, emit. simpl. rewrite Ha, Hresp. simpl.
  by rewrite <- app_assoc.
Qed.

(** From the arrival of a fitting response to the end of the deferred
    work, the operation's completion is notified exactly once: through its
    callback when it has one, by waking the waiters otherwise; then the
    response buffer is handed back. *)
Theorem delivered_response_notified_once `{Externals} data w msg_size type i a o g b :
  registry_ok w ->
  Z.of_nat (length data) <= GB_OPERATION_MESSAGE_SIZE_MAX ->
  hdr_size data = Some msg_size -> hdr_type data = Some type ->
  Z.land type GB_OPERATION_TYPE_RESPONSE <> 0 ->
  hdr_id data = Some i ->
  a ∈ inorder (pending (conn w)) -> op_id w a = i ->
  ops w !! a = Some o -> response o = Some g -> gbufs w !! g = Some b ->
  Z.of_nat (length (transfer_buffer b)) = transfer_buffer_length b ->
  Z.of_nat (length data) <= transfer_buffer_length b ->
  msg_size <= Z.of_nat (length data) ->
  exists w1 w2,
    gb_connection_operation_recv data w = Ok tt w1 /\
    EvQueueWork a ∈ new_events w w1 /\
    gb_operation_recv_work a w1 = Ok tt w2 /\
    new_events w1 w2 =
      [match callback o with
       | Some cb => EvCallback cb a
       | None => EvCompleteAll a
       end; EvFinished (Some g)] /\
    notifications a (new_events w w2) = 1%nat.
Proof.
  intros Hok Hmax Hsz Hty Hbit Hid Hin Hkey Ha Hresp Hg Hcap Hfit Hwhole.
  destruct (recv_response_fits data w msg_size type i a o g b)
    as (w1 & b' & Hrun & Hev & _ & Hops & _); try done.
  assert (Hlog1 : log w1 = log w ++ new_events w w1).
  { pose proof (recv_response data w msg_size type i a o g b) as Hr.
    rewrite Hrun in Hr. unfold new_events.
    assert (gb_operation_find w i = Some a) as Hf
      by (rewrite <- Hkey; by apply find_loop_member).
    specialize (Hr Hmax Hsz Hty Hbit Hid Hf Ha Hresp Hg). simpl in Hr.
    destruct (_ >? _); [injection Hr as ->; simpl; by rewrite drop_app_length|].
    destruct (memcpy _ _ _); [|discriminate].
    injection Hr as ->. simpl. by rewrite drop_app_length. }
  rewrite <- Hops in Ha.
  exists w1. destruct (callback o) as [cb|] eqn:Hcb.
  - eexists. split; [done|]. split; [rewrite Hev; set_solver|].
    split; [by eapply recv_work_response_callback|].
    unfold new_events at 1 2, notifications, add_log. simpl.
    rewrite drop_app_length. split; [done|].
    rewrite Hlog1, <- app_assoc, drop_app_length, Hev. simpl.
    by rewrite bool_decide_true.
  - eexists. split; [done|]. split; [rewrite Hev; set_solver|].
    split; [by eapply recv_work_response|].
    unfold new_events at 1 2, notifications. simpl.
    rewrite drop_app_length. split; [done|].
    rewrite Hlog1, <- app_assoc, drop_app_length, Hev. simpl.
    by rewrite bool_decide_true.
Qed.

Lemma delivered_response_notified_once_witness :
  exists w1 w2,
    gb_connection_operation_recv frame_response24 w_pending = Ok tt w1 /\
    gb_operation_recv_work 0 w1 = Ok tt w2 /\
    new_events w1 w2 = [EvCallback 7 0; EvFinished (Some 1%nat)].
Proof.
  destruct (delivered_response_notified_once frame_response24 w_pending 24 129 1
              0%nat (GbOperation 1 (Some 0%nat) (Some 1%nat) (Some 7%nat) 0 false)
              1%nat
              (Gbuf ([24; 0; 0; 0; 129; 0; 0; 0] ++ replicate 16 0) 24 0 0 false 0))
    as (w1 & w2 & Hrun & _ & Hwork & Hev & _).
  - unfold registry_ok, ordered. simpl. repeat constructor.
  - vm_compute. discriminate.
  - reflexivity.
  - reflexivity.
  - vm_compute. discriminate.
  - reflexivity.
  - simpl. by apply list_elem_of_singleton.
  - reflexivity.
  - reflexivity.
  - reflexivity.
  - reflexivity.
  - reflexivity.
  - vm_compute. discriminate.
  - vm_compute. discriminate.
  - exists w1, w2. split; [exact Hrun|]. split; [exact Hwork|exact Hev].
Defined.

(** ** Frames shorter than a header *)

(** The dispatcher reads the header without asking whether the block holds
    one: on a block of fewer than five bytes the read of [size] or of
    [type] runs past the bytes delivered, before anything is changed. *)
Theorem short_frame_read_past_end `{Externals} data w :
  (length data < 5)%nat ->
  gb_connection_operation_recv data w = Fault SrcOverrun w.
Proof.
  intros Hshort. unfold gb_connection_operation_recv.
  replace (_ >? GB_OPERATION_MESSAGE_SIZE_MAX) with false
    by (unfold GB_OPERATION_MESSAGE_SIZE_MAX; lia).
  unfold hdr_size, hdr_type, le16_at, u8_at, off_size, off_type.
  destruct data as [|b0 [|b1 [|b2 [|b3 [|b4 rest]]]]]; simpl in *;
    try reflexivity; lia.
Qed.

Lemma short_frame_read_past_end_witness :
  gb_connection_operation_recv [8; 0; 0; 0] w_pending = Fault SrcOverrun w_pending.
Proof. apply short_frame_read_past_end. simpl. lia. Defined.

(** ** Creating and destroying *)

Lemma filter_ne_snoc (l : list nat) a :
  a ∉ l -> filter (fun x => x <> a) (l ++ [a]) = l.
Proof.
  intros Ha. rewrite filter_app. rewrite filter_cons, decide_False by (intros Hx; by apply Hx).
  rewrite filter_nil, app_nil_r.
  induction l as [|y l IH]; [done|].
  apply not_elem_of_cons in Ha as [Hne Ha].
  rewrite filter_cons, decide_True by congruence. by rewrite IH.
Qed.

(** [gb_operation_destroy] undoes [gb_operation_create]: when every
    operation on the connection's list is live, destroying the operation
    just created gives back the connection, the operations and the buffers
    as they were before the creation. *)
Theorem create_destroy_restores type rq rs w :
  0 <= rq -> rq + sizeof_hdr < 2 ^ 64 ->
  0 <= rs -> rs + sizeof_hdr < 2 ^ 64 ->
  create_fails rs w = false ->
  (forall x, x ∈ operations (conn w) -> is_Some (ops w !! x)) ->
  exists a w1 w2,
    gb_operation_create type rq rs w = Ok (Some a) w1 /\
    a ∈ operations (conn w1) /\
    gb_operation_destroy a w1 = Ok tt w2 /\
    conn w2 = conn w /\ ops w2 = ops w /\ gbufs w2 = gbufs w /\ log w2 = log w.
Proof.
  intros Hrq Hrqmax Hrs Hrsmax Hfail Hlive. unfold create_fails in Hfail.
  apply orb_false_iff in Hfail as [Hfail H2].
  apply orb_false_iff in Hfail as [H0 H1].
  apply negb_false_iff in H0, H1.
  assert (Hnew : fresh (dom (ops w)) ∉ operations (conn w)).
  { intros Hin. destruct (Hlive _ Hin) as [o Ho].
    by rewrite fresh_gmap_None in Ho. }
  assert (Hconn : forall c : gb_connection,
    GbConnection (protocol c) (op_cycle c) (pending c) (operations c) = c)
    by (by intros []).
  destruct (rs =? 0) eqn:Hz; simpl in H2.
  - assert (rs = 0) as -> by lia.
    rewrite gb_operation_create_incoming by done.
    eexists. eexists. eexists. split; [reflexivity|].
    split; [simpl; apply elem_of_app; right; by left|].
    unfold gb_operation_destroy, list_del, bind, get, set_conn, load_op,
      greybus_free_gbuf, kfree, ret. simpl.
    rewrite lookup_insert_eq. simpl. split; [reflexivity|]. simpl.
    rewrite filter_ne_snoc by done.
    rewrite !delete_insert_eq, !delete_id by apply fresh_gmap_None.
    by rewrite Hconn.
  - apply negb_false_iff in H2.
    rewrite gb_operation_create_outgoing by (try done; lia).
    set (g := fresh (dom (gbufs w))).
    set (bq := with_actual_length _ _).
    set (g' := fresh (dom (<[g := bq]> (gbufs w)))).
    assert (Hg' : <[g := bq]> (gbufs w) !! g' = None) by apply fresh_gmap_None.
    eexists. eexists. eexists. split; [reflexivity|].
    split; [simpl; apply elem_of_app; right; by left|].
    unfold gb_operation_destroy, list_del, bind, get, set_conn, load_op,
      greybus_free_gbuf, kfree, ret. simpl.
    rewrite lookup_insert_eq. simpl. split; [reflexivity|]. simpl.
    rewrite filter_ne_snoc by done.
    rewrite (delete_insert_eq _ g'), (delete_id _ g') by done.
    rewrite !delete_insert_eq, !delete_id by apply fresh_gmap_None.
    by rewrite Hconn.
Qed.

Lemma create_destroy_restores_witness :
  exists a w1 w2,
    gb_operation_create 1 16 16 w_pending = Ok (Some a) w1 /\
    gb_operation_destroy a w1 = Ok tt w2 /\
    conn w2 = conn w_pending /\ ops w2 = ops w_pending /\
    gbufs w2 = gbufs w_pending.
Proof.
  destruct (create_destroy_restores 1 16 16 w_pending)
    as (a & w1 & w2 & Hc & _ & Hd & Hconn & Hops & Hgb & _).
  - lia.
  - vm_compute. reflexivity.
  - lia.
  - vm_compute. reflexivity.
  - reflexivity.
  - intros x Hx. simpl in Hx. apply list_elem_of_singleton in Hx as ->.
    vm_compute. eexists. reflexivity.
  - exists a, w1, w2. split; [exact Hc|]. split; [exact Hd|].
    split; [exact Hconn|]. split; [exact Hops|exact Hgb].
Defined.

(** ** Responding *)

(** [gb_operation_response_send] on an operation of the pending tree
    returns 0 and leaves no trace of it: its identifier is no longer found,
    it is on neither the tree nor the connection's list, its object and its
    two buffers are released, and everything else is untouched. *)
Theorem response_send_releases `{Externals} w a o :
  registry_ok w -> a ∈ inorder (pending (conn w)) -> ops w !! a = Some o ->
  exists w',
    gb_operation_response_send a w = Ok 0 w' /\
    gb_operation_find w' (op_id w a) = None /\
    registry_ok w' /\
    (a ∉ inorder (pending (conn w'))) /\
    (a ∉ operations (conn w')) /\
    ops w' = delete a (ops w) /\
    (forall g, (request o = Some g \/ response o = Some g) ->
               gbufs w' !! g = None) /\
    (forall g, (request o <> Some g) -> (response o <> Some g) ->
               gbufs w' !! g = gbufs w !! g) /\
    log w' = log w.
Proof.
  intros Hok Hin Ha.
  destruct (gb_operation_remove_ok w a Hok Hin)
    as (w1 & Hrm & Hnone & Hok1 & Hino & _).
  unfold gb_operation_remove, bind, get, set_conn in Hrm.
  injection Hrm as <-.
  unfold gb_operation_response_send, gb_operation_remove, gb_operation_destroy,
    list_del, bind, get, set_conn, load_op, kfree, ret. simpl. rewrite Ha.
  assert (Hnot : a ∉ inorder (rb_erase a (pending (conn w)))).
  { simpl in Hino. rewrite Hino. intros Hx.
    apply list_elem_of_filter in Hx as [Hne _]. by apply Hne. }
  assert (Hkeys : forall m1 al lg c x,
    x ∈ inorder (rb_erase a (pending (conn w))) ->
    op_id (World (unregistered w a) (ops w) (gbufs w) (allocs w) (log w)) x =
    op_id (World c (delete a (ops w)) m1 al lg) x).
  { intros m1 al lg c x Hx. unfold op_id. simpl.
    rewrite lookup_delete_ne; [done|]. intros ->. done. }
  destruct (response o) as [gs|] eqn:Hresp, (request o) as [gq|] eqn:Hreq;
    simpl; (eexists; split; [reflexivity|]); simpl;
    (split_and!;
     [ unfold gb_operation_find in *; simpl in *;
       erewrite <- find_loop_ext; [exact Hnone|];
       intros x Hx; by apply Hkeys
     | unfold registry_ok in *; simpl in *;
       eapply ordered_ext; [|exact Hok1];
       intros x Hx; by apply Hkeys
     | done
     | intros Hx; apply list_elem_of_filter in Hx as [Hne _]; by apply Hne
     | done
     | intros g [[= <-]|[= <-]]
     | intros g Hq Hs
     | done ]).
  all: try (apply lookup_delete_eq).
  all: try (destruct (decide (gq = gs)) as [->|Hne];
            [apply lookup_delete_eq|rewrite lookup_delete_ne by done;
                                     apply lookup_delete_eq]).
  all: try (rewrite !lookup_delete_ne by congruence; done).
  all: try done.
Qed.

Lemma response_send_releases_witness :
  exists w',
    gb_operation_response_send 0 w_pending = Ok 0 w' /\
    gb_operation_find w' 1 = None /\
    ops w' !! 0%nat = None /\
    gbufs w' !! 0%nat = None /\ gbufs w' !! 1%nat = None.
Proof.
  destruct (response_send_releases w_pending 0%nat
              (GbOperation 1 (Some 0%nat) (Some 1%nat) (Some 7%nat) 0 false))
    as (w' & Hrun & Hnone & _ & _ & _ & Hops & Hfree & _).
  - unfold registry_ok, ordered. simpl. repeat constructor.
  - simpl. by apply list_elem_of_singleton.
  - reflexivity.
  - exists w'. split; [exact Hrun|]. split; [exact Hnone|].
    split; [rewrite Hops; apply lookup_delete_eq|].
    split; apply Hfree; [left|right]; reflexivity.
Defined.

(** ** Sending *)

(** What [gb_operation_request_send] returns and does, for an operation
    that is not pending yet, when the identifier it is given is free and the
    fuel exceeds the height of the tree: the callback is stored, the
    operation is registered under the new identifier and its request buffer
    submitted; a submission error is returned as it is, with the operation
    still registered; with a callback the call returns 0 without waiting;
    without one it returns the result of the wait, or, when the wait is
    interrupted, the result of the cancellation it then asks for. *)
Theorem request_send_outcome `{Externals} fuel w a o g b cb sr wr kr :
  registry_ok w ->
  ops w !! a = Some o -> request o = Some g -> gbufs w !! g = Some b ->
  (4 <= length (transfer_buffer b))%nat ->
  a ∉ inorder (pending (conn w)) ->
  (forall x, x ∈ inorder (pending (conn w)) ->
     op_id w x <> u16 (gb_connection_operation_id (op_cycle (conn w))).1) ->
  (height (pending (conn w)) < fuel)%nat ->
  let waits := bool_decide (sr = 0 /\ cb = None) in
  let cancels := waits && (wr <? 0) in
  exists w' o',
    gb_operation_request_send fuel a cb sr wr kr w =
      Ok (if negb (sr =? 0) then sr
          else if negb waits then 0
          else if cancels then kr else wr) w' /\
    new_events w w' =
      EvSubmit (Some g) :: (if cancels then [EvKill (Some g)] else []) /\
    gb_operation_find w' (op_id w' a) = Some a /\
    op_id w' a = u16 (gb_connection_operation_id (op_cycle (conn w))).1 /\
    ops w' !! a = Some o' /\ callback o' = cb /\
    registry_ok w'.
Proof.
  intros Hok Ha Hreq Hg Hlen Hnotin Hfresh Hfuel waits cancels.
  unfold gb_operation_request_send.
  unfold bind at 1, load_op at 1. rewrite Ha.
  unfold bind at 1, store_op at 1.
  set (o1 := GbOperation (id o) (request o) (response o) cb (result o) (completion o)).
  set (w0 := World _ _ _ _ _).
  assert (Hkey : forall x, op_id w0 x = op_id w x).
  { intros x. unfold op_id, w0. simpl.
    destruct (decide (x = a)) as [->|Hne].
    - by rewrite lookup_insert_eq, Ha.
    - by rewrite lookup_insert_ne. }
  destruct (gb_operation_insert_ok fuel w0 a o1 g b)
    as (w1 & Hins & Hid & Hfind & Hok1 & _ & _ & Hops1 & Hlog1 & _); try done.
  { unfold registry_ok. simpl. eapply ordered_ext; [|exact Hok]. done. }
  { unfold w0. simpl. apply lookup_insert_eq. }
  { intros x Hx. rewrite Hkey. by apply Hfresh. }
  unfold bind at 1. rewrite Hins.
  unfold bind at 1, load_op at 1. rewrite Hops1. simpl.
  unfold bind at 1, emit at 1. simpl.
  set (w2 := World _ _ _ _ _).
  assert (Hsame : gb_operation_find w2 (op_id w2 a) = Some a /\
                  op_id w2 a = u16 (gb_connection_operation_id (op_cycle (conn w))).1 /\
                  registry_ok w2).
  { unfold gb_operation_find, registry_ok, op_id in *. simpl. done. }
  destruct Hsame as (Hfind2 & Hid2 & Hok2).
  assert (Hev2 : new_events w w2 = [EvSubmit (Some g)]).
  { unfold new_events, w2. simpl. rewrite Hlog1. unfold w0. simpl.
    by rewrite drop_app_length, Hreq. }
  subst waits cancels.
  destruct (sr =? 0) eqn:Hsr; simpl.
  2:{ rewrite bool_decide_false by lia. simpl.
      exists w2. eexists. split; [reflexivity|].
      split_and!; try done; unfold w2; simpl; exact Hops1. }
  assert (sr = 0) as -> by lia.
  destruct cb as [c|]; simpl.
  - try (rewrite bool_decide_false by (intros [_ ?]; done); simpl).
    exists w2. eexists. split; [reflexivity|].
    split_and!; try done; unfold w2; simpl; exact Hops1.
  - try (rewrite bool_decide_true by done; simpl).
    unfold gb_operation_wait. destruct (wr <? 0) eqn:Hwr.
    + unfold bind, load_op, emit, ret. simpl. rewrite Hops1. simpl.
      eexists. eexists. split; [reflexivity|].
      unfold gb_operation_find, registry_ok, op_id, new_events in *.
      simpl in *. split_and!; try done.
      rewrite Hlog1. unfold w0. simpl.
      by rewrite <- app_assoc, drop_app_length, Hreq.
    + exists w2. eexists. split; [reflexivity|].
      split_and!; try done; unfold w2; simpl; exact Hops1.
Qed.

(** A submission that fails: the error comes back and the operation stays
    registered under its new identifier. *)
Lemma request_send_outcome_witness :
  exists w',
    gb_operation_request_send 1 0 None (-5) 0 0 w_created = Ok (-5) w' /\
    new_events w_created w' = [EvSubmit (Some 0%nat)] /\
    gb_operation_find w' 1 = Some 0%nat.
Proof.
  destruct (request_send_outcome 1%nat w_created 0%nat
              (GbOperation 0 (Some 0%nat) (Some 1%nat) None 0 false) 0%nat
              (Gbuf ([24; 0; 0; 0; 1; 0; 0; 0] ++ replicate 16 0) 24 16 0 true 0)
              None (-5) 0 0)
    as (w' & o' & Hrun & Hev & Hfind & Hid & _).
  - constructor.
  - reflexivity.
  - reflexivity.
  - reflexivity.
  - simpl. lia.
  - simpl. apply not_elem_of_nil.
  - intros x Hx. simpl in Hx. by apply elem_of_nil in Hx.
  - simpl. lia.
  - exists w'. split; [exact Hrun|]. split; [exact Hev|].
    rewrite Hid in Hfind. exact Hfind.
Defined.

(** ** The handler table *)

(** When the nine protocol numbers are distinct bytes, the protocols with a
    request handler are I2C and battery, and no other. *)
Theorem handlers_are_i2c_and_battery `{Externals} p :
  NoDup [GREYBUS_PROTOCOL_CONTROL; GREYBUS_PROTOCOL_AP; GREYBUS_PROTOCOL_GPIO;
         GREYBUS_PROTOCOL_I2C; GREYBUS_PROTOCOL_UART; GREYBUS_PROTOCOL_HID;
         GREYBUS_PROTOCOL_BATTERY; GREYBUS_PROTOCOL_LED;
         GREYBUS_PROTOCOL_VENDOR] ->
  Forall (fun x => 0 <= x <= 255)
    [GREYBUS_PROTOCOL_CONTROL; GREYBUS_PROTOCOL_AP; GREYBUS_PROTOCOL_GPIO;
     GREYBUS_PROTOCOL_I2C; GREYBUS_PROTOCOL_UART; GREYBUS_PROTOCOL_HID;
     GREYBUS_PROTOCOL_BATTERY; GREYBUS_PROTOCOL_LED;
     GREYBUS_PROTOCOL_VENDOR] ->
  0 <= p <= 255 ->
  lookup_handler p =
    if bool_decide (p = GREYBUS_PROTOCOL_I2C \/ p = GREYBUS_PROTOCOL_BATTERY)
    then Some gb_operation_recv_none else None.
Proof.
  intros Hnd Hrange Hp.
  assert (Hdiff : forall i j x y,
    [GREYBUS_PROTOCOL_CONTROL; GREYBUS_PROTOCOL_AP; GREYBUS_PROTOCOL_GPIO;
     GREYBUS_PROTOCOL_I2C; GREYBUS_PROTOCOL_UART; GREYBUS_PROTOCOL_HID;
     GREYBUS_PROTOCOL_BATTERY; GREYBUS_PROTOCOL_LED;
     GREYBUS_PROTOCOL_VENDOR] !! i = Some x ->
    [GREYBUS_PROTOCOL_CONTROL; GREYBUS_PROTOCOL_AP; GREYBUS_PROTOCOL_GPIO;
     GREYBUS_PROTOCOL_I2C; GREYBUS_PROTOCOL_UART; GREYBUS_PROTOCOL_HID;
     GREYBUS_PROTOCOL_BATTERY; GREYBUS_PROTOCOL_LED;
     GREYBUS_PROTOCOL_VENDOR] !! j = Some y ->
    i <> j -> (x =? y) = false).
  { intros i j x y Hi Hj Hij. apply Z.eqb_neq. intros ->.
    apply Hij. by eapply (NoDup_lookup _ i j y). }
  clear Hnd. rewrite !Forall_cons in Hrange.
  unfold lookup_handler, ARRAY_SIZE, table_entry, gb_operation_recv_handlers, u8.
  simpl.
  set (m := Z.max _ _).
  assert (0 <= m <= 255) as Hm by (unfold m; lia).
  replace (1 + m - 1) with m by lia. rewrite (Z.mod_small m) by lia.
  destruct (decide (p = GREYBUS_PROTOCOL_I2C \/ p = GREYBUS_PROTOCOL_BATTERY))
    as [[->| ->]|Hno].
  - rewrite bool_decide_true by (by left).
    replace (_ <=? m) with true by (unfold m; lia).
    rewrite (Hdiff 8%nat 3%nat), (Hdiff 7%nat 3%nat), (Hdiff 6%nat 3%nat),
      (Hdiff 5%nat 3%nat), (Hdiff 4%nat 3%nat) by (reflexivity || lia).
    by rewrite Z.eqb_refl.
  - rewrite bool_decide_true by (by right).
    replace (_ <=? m) with true by (unfold m; lia).
    rewrite (Hdiff 8%nat 6%nat), (Hdiff 7%nat 6%nat) by (reflexivity || lia).
    by rewrite Z.eqb_refl.
  - rewrite bool_decide_false by done. clear Hdiff Hrange Hm.
    assert ((GREYBUS_PROTOCOL_I2C =? p) = false) as ->
      by (apply Z.eqb_neq; intros Heq; apply Hno; left; by symmetry).
    assert ((GREYBUS_PROTOCOL_BATTERY =? p) = false) as ->
      by (apply Z.eqb_neq; intros Heq; apply Hno; right; by symmetry).
    destruct (p <=? m); [|reflexivity].
    repeat match goal with
           | |- context [?x =? p] => destruct (x =? p)
           end; reflexivity.
Qed.

Lemma handlers_are_i2c_and_battery_witness :
  lookup_handler 3 = Some gb_operation_recv_none /\ lookup_handler 2 = None.
Proof.
  split.
  - rewrite (handlers_are_i2c_and_battery 3); [reflexivity| | |lia].
    + apply (bool_decide_unpack _). vm_compute. exact I.
    + repeat (constructor; [vm_compute; split; discriminate|]). constructor.
  - rewrite (handlers_are_i2c_and_battery 2); [reflexivity| | |lia].
    + apply (bool_decide_unpack _). vm_compute. exact I.
    + repeat (constructor; [vm_compute; split; discriminate|]). constructor.
Defined.

(** ** What [gb_operation_insert] writes *)

(** [gb_operation_insert] stores the new identifier in the header of the
    request buffer, in bytes 2 and 3 and nowhere else; every other buffer,
    the operation's response buffer included, is left as it was. *)
Theorem insert_writes_request_header_only `{Externals} fuel w a o g b :
  registry_ok w ->
  ops w !! a = Some o -> request o = Some g -> gbufs w !! g = Some b ->
  (4 <= length (transfer_buffer b))%nat ->
  a ∉ inorder (pending (conn w)) ->
  (forall x, x ∈ inorder (pending (conn w)) ->
     op_id w x <> u16 (gb_connection_operation_id (op_cycle (conn w))).1) ->
  (height (pending (conn w)) < fuel)%nat ->
  exists w' b',
    gb_operation_insert fuel a w = Ok tt w' /\
    gbufs w' = <[g := b']> (gbufs w) /\
    hdr_id (transfer_buffer b') =
      Some (u16 (gb_connection_operation_id (op_cycle (conn w))).1) /\
    take 2 (transfer_buffer b') = take 2 (transfer_buffer b) /\
    drop 4 (transfer_buffer b') = drop 4 (transfer_buffer b) /\
    length (transfer_buffer b') = length (transfer_buffer b) /\
    transfer_buffer_length b' = transfer_buffer_length b /\
    actual_length b' = actual_length b /\ status b' = status b.
Proof.
  intros Hok Ha Hreq Hg Hlen Hnotin Hfresh Hfuel.
  destruct (gb_operation_insert_ok fuel w a o g b)
    as (w' & Hins & _); try done.
  exists w'. revert Hins.
  unfold gb_operation_insert, bind, load_op. rewrite Ha. simpl.
  destruct (gb_connection_operation_id (op_cycle (conn w))) as [nid cyc] eqn:Hid.
  simpl. rewrite Hreq. simpl.
  erewrite write_gbuf_ok by (simpl; first [done|unfold off_id; simpl; lia]).
  simpl. destruct (link_loop _ _ _ _ _); [|discriminate].
  unfold set_conn. intros [= <-]. simpl.
  eexists. split; [reflexivity|]. split; [reflexivity|].
  cbn [transfer_buffer transfer_buffer_length actual_length status].
  assert (Htake : length (take off_id (transfer_buffer b)) = 2%nat)
    by (rewrite length_take; unfold off_id; lia).
  split_and!; try done.
  - pose proof (hdr_id_written (transfer_buffer b) (u16 nid) Hlen) as Hh.
    unfold cpu_to_le16 in Hh. simpl in Hh. rewrite Hh.
    unfold u16. by rewrite Z.mod_mod.
  - rewrite take_app_length'; [done|by rewrite Htake].
  - change 4%nat with (2 + 2)%nat at 1.
    rewrite drop_app_add' by (by rewrite Htake). reflexivity.
  - rewrite length_app, Htake. simpl. rewrite length_drop. lia.
Qed.

Lemma insert_writes_request_header_only_witness :
  exists w' b',
    gb_operation_insert 1 0 w_created = Ok tt w' /\
    gbufs w' !! 0%nat = Some b' /\
    hdr_id (transfer_buffer b') = Some 1 /\
    gbufs w' !! 1%nat = gbufs w_created !! 1%nat.
Proof.
  destruct (insert_writes_request_header_only 1%nat w_created 0%nat
              (GbOperation 0 (Some 0%nat) (Some 1%nat) None 0 false) 0%nat
              (Gbuf ([24; 0; 0; 0; 1; 0; 0; 0] ++ replicate 16 0) 24 16 0 true 0))
    as (w' & b' & Hrun & Hgb & Hid & _).
  - constructor.
  - reflexivity.
  - reflexivity.
  - reflexivity.
  - simpl. lia.
  - simpl. apply not_elem_of_nil.
  - intros x Hx. simpl in Hx. by apply elem_of_nil in Hx.
  - simpl. lia.
  - exists w', b'. split; [exact Hrun|]. rewrite Hgb.
    split; [apply lookup_insert_eq|]. split; [exact Hid|].
    apply lookup_insert_ne. lia.
Defined.

(** * Properties of the loopback statistics *)


(** Closing a statistics window.  While less than a second has elapsed
    [gb_loopback_update_stats] changes nothing.  After a second it computes
    the average (sum over count, or sum times whole seconds when the count
    is zero), widens the minimum and the maximum to include it, and clears
    sum and count. *)
Theorem loopback_update_stats_window stats elapsed :
  let s' := Loopback.gb_loopback_update_stats stats elapsed in
  (elapsed < Loopback.NSEC_PER_SEC -> s' = stats) /\
  (Loopback.NSEC_PER_SEC <= elapsed ->
     Loopback.min s' <= Loopback.avg s' <= Loopback.max s' /\
     Loopback.min s' <= Loopback.min stats /\
     Loopback.max stats <= Loopback.max s' /\
     Loopback.sum s' = 0 /\ Loopback.count s' = 0 /\
     Loopback.avg s' =
       if Loopback.count stats =? 0
       then Loopback.u32 (Loopback.sum stats * (elapsed / Loopback.NSEC_PER_SEC))
       else Loopback.sum stats / Loopback.count stats).
Proof.
  unfold Loopback.gb_loopback_update_stats. split.
  - intros Hlt. by replace (_ >=? _) with false by lia.
  - intros Hge. replace (_ >=? _) with true by lia. simpl.
    set (a := if Loopback.count stats =? 0 then _ else _).
    destruct (Loopback.min stats >? a) eqn:Hmin,
             (Loopback.max stats <? a) eqn:Hmax; split_and!; try done; lia.
Qed.

Lemma loopback_update_stats_window_witness :
  Loopback.gb_loopback_update_stats
    (Loopback.Stats 0xffffffff 0 0 30 4) 1500000000 =
  Loopback.Stats 7 7 7 0 0.
Proof.
  destruct (loopback_update_stats_window
              (Loopback.Stats 0xffffffff 0 0 30 4) 1500000000) as [_ Hclose].
  destruct Hclose as (_ & _ & _ & _ & _ & _); [vm_compute; discriminate|].
  reflexivity.
Defined.

(** After [gb_loopback_latency_update] the recorded minimum and maximum
    latency bracket the sample just taken, whatever they were before. *)
Theorem loopback_latency_brackets_sample gb tlat :
  let l' := Loopback.latency (Loopback.gb_loopback_latency_update gb tlat) in
  Loopback.min l' <= Loopback.latency_sample tlat <= Loopback.max l'.
Proof.
  unfold Loopback.gb_loopback_latency_update, Loopback.gb_loopback_update_stats.
  simpl. set (lat := Loopback.latency_sample tlat).
  set (mn := if Loopback.min (Loopback.latency gb) >? lat then lat
             else Loopback.min (Loopback.latency gb)).
  set (mx := if Loopback.max (Loopback.latency gb) <? lat then lat
             else Loopback.max (Loopback.latency gb)).
  assert (mn <= lat) by (unfold mn; destruct (_ >? _) eqn:?; lia).
  assert (lat <= mx) by (unfold mx; destruct (_ <? _) eqn:?; lia).
  destruct (_ >=? _); simpl; [|lia].
  set (a := if _ =? 0 then _ else _).
  destruct (mn >? a) eqn:?, (mx <? a) eqn:?; lia.
Qed.

(** When the window closes on a latency update, the average is the sum of
    the samples of the window, the new one included, over their number (in
    [u32] arithmetic), provided the count does not wrap. *)
Theorem loopback_latency_average gb tlat :
  Loopback.NSEC_PER_SEC <= Loopback.elapsed_nsecs gb ->
  0 <= Loopback.count (Loopback.latency gb) < 2 ^ 32 - 1 ->
  let l' := Loopback.latency (Loopback.gb_loopback_latency_update gb tlat) in
  Loopback.avg l' =
    Loopback.u32 (Loopback.sum (Loopback.latency gb) + Loopback.latency_sample tlat)
    / (Loopback.count (Loopback.latency gb) + 1) /\
  Loopback.sum l' = 0 /\ Loopback.count l' = 0.
Proof.
  intros Hge Hcount.
  unfold Loopback.gb_loopback_latency_update, Loopback.gb_loopback_update_stats.
  simpl. replace (_ >=? _) with true by lia. simpl.
  assert (Hc1 : Loopback.u32 (Loopback.count (Loopback.latency gb) + 1) =
                Loopback.count (Loopback.latency gb) + 1)
    by (unfold Loopback.u32; apply Z.mod_small; lia).
  rewrite Hc1.
  by replace (_ + 1 =? 0) with false by lia.
Qed.

Lemma loopback_latency_average_witness :
  let gb := Loopback.GbLoopback 1 0 0 (Loopback.Stats 2 9 0 20 3)
              (Loopback.Stats 0 0 0 0 0) (Loopback.Stats 0 0 0 0 0)
              (Loopback.Timeval 0 0) (Loopback.Timeval 0 0) 1000000000 0 in
  Loopback.avg (Loopback.latency
    (Loopback.gb_loopback_latency_update gb (Loopback.Timeval 0 4000))) = 6.
Proof.
  intros gb.
  destruct (loopback_latency_average gb (Loopback.Timeval 0 4000))
    as (Havg & _); [vm_compute; discriminate|vm_compute; split; [discriminate|reflexivity]|].
  rewrite Havg. reflexivity.
Defined.



(** * Properties of host-device creation *)

(** [gb_hd_create] hands back a host device only for a driver with both
    callbacks, a buffer size of at least the minimum and a CPort count
    between 1 and [CPORT_ID_MAX + 1], when the allocation and the bus
    identifier are obtained; the device then carries the buffer size cut
    down to the maximum.  Every refusal returns a negative [EINVAL],
    [ENOMEM] or the identifier error, and an object that was allocated is
    freed again. *)
Theorem hd_create_result smin smax cmax drv bsm ncp kz ida :
  smin <= smax -> 0 <= ncp ->
  let r := Hd.gb_hd_create smin smax cmax drv bsm ncp kz ida in
  match r.1 with
  | inr hd =>
    is_Some (Hd.message_send drv) /\ is_Some (Hd.message_cancel drv) /\
    smin <= bsm /\ kz = true /\ 0 <= ida /\
    Hd.driver hd = drv /\ Hd.bus_id hd = ida /\
    Hd.buffer_size_max hd = Z.min bsm smax /\
    smin <= Hd.buffer_size_max hd <= smax /\
    Hd.num_cports hd = ncp /\ 1 <= ncp <= cmax + 1 /\
    (Hd.Kzalloc ∈ r.2) /\ (Hd.Kfree ∉ r.2)
  | inl e =>
    (e = - Hd.EINVAL /\ r.2 <> [] /\ (Hd.Kzalloc ∉ r.2) /\
       (Hd.message_send drv = None \/ Hd.message_cancel drv = None \/
        bsm < smin \/ ncp = 0 \/ cmax + 1 < ncp)) \/
    (e = - Hd.ENOMEM /\ kz = false /\ (Hd.Kzalloc ∉ r.2)) \/
    (e = ida /\ ida < 0 /\ (Hd.Kzalloc ∈ r.2) /\ (Hd.Kfree ∈ r.2))
  end.
Proof.
  intros Hlim Hncp. unfold Hd.gb_hd_create.
  destruct (Hd.message_send drv) as [ms|] eqn:Hms; simpl.
  2:{ left. split_and!; try done; [hd_mem|by left]. }
  destruct (Hd.message_cancel drv) as [mc|] eqn:Hmc; simpl.
  2:{ left. split_and!; try done; [hd_mem|right; by left]. }
  destruct (bsm <? smin) eqn:Hmin; simpl.
  { left. split_and!; try done; [hd_mem|right; right; left; lia]. }
  destruct (ncp =? 0) eqn:Hz; simpl.
  { left. split_and!; try done; [hd_mem|right; right; right; left; lia]. }
  destruct (ncp >? cmax + 1) eqn:Hc; simpl.
  { left. split_and!; try done; [hd_mem|right; right; right; right; lia]. }
  destruct kz; simpl.
  2:{ right. left. split_and!; try done. destruct (bsm >? smax); hd_mem. }
  destruct (ida <? 0) eqn:Hida; simpl.
  { right. right. split_and!; try done; [lia| |];
      destruct (bsm >? smax); hd_mem. }
  split_and!; try done; try lia.
  - destruct (bsm >? smax) eqn:Hmax; lia.
  - destruct (bsm >? smax) eqn:Hmax; lia.
  - destruct (bsm >? smax) eqn:Hmax; lia.
  - destruct (bsm >? smax); hd_mem.
  - destruct (bsm >? smax); hd_mem.
Qed.

Lemma hd_create_result_witness :
  exists hd,
    (Hd.gb_hd_create 8 65535 4095 (Hd.HdDriver 0 (Some 1%nat) (Some 2%nat))
       100000 16 true 1).1 = inr hd /\
    Hd.buffer_size_max hd = 65535 /\ Hd.num_cports hd = 16.
Proof.
  pose proof (hd_create_result 8 65535 4095
                (Hd.HdDriver 0 (Some 1%nat) (Some 2%nat)) 100000 16 true 1) as Hr.
  simpl in Hr. destruct Hr as (_ & _ & _ & _ & _ & _ & _ & Hb & _ & Hn & _);
    [lia|lia|].
  eexists. split; [reflexivity|]. split; [exact Hb|exact Hn].
Defined.

(** * Incoming requests with a handler *)

(** An incoming request on a connection whose protocol has a handler, from
    the arrival of a frame that holds the bytes it declares to the end of
    the deferred work: the handler runs once on the new operation, the
    completion is notified once, the request buffer is handed back, and the
    operation's result is left at zero. *)
Theorem handled_request_runs_once `{Externals} data w msg_size type h :
  Z.of_nat (length data) <= GB_OPERATION_MESSAGE_SIZE_MAX ->
  hdr_size data = Some msg_size -> hdr_type data = Some type ->
  Z.land type GB_OPERATION_TYPE_RESPONSE = 0 ->
  answer 0 w = true -> answer 1 w = true ->
  msg_size <= Z.of_nat (length data) ->
  lookup_handler (u8 (protocol (conn w))) = Some h ->
  let a := fresh (dom (ops w)) in
  let g := fresh (dom (gbufs w)) in
  exists w1 w2 o,
    gb_connection_operation_recv data w = Ok tt w1 /\
    EvQueueWork a ∈ new_events w w1 /\
    ops w !! a = None /\
    gb_operation_recv_work a w1 = Ok tt w2 /\
    new_events w1 w2 = [EvHandler a; EvCompleteAll a; EvFinished (Some g)] /\
    ops w2 !! a = Some o /\ request o = Some g /\ result o = 0 /\
    completion o = true.
Proof.
  intros Hmax Hsz Hty Hbit H0 H1 Hwhole Hh a g.
  destruct (recv_request_world data w msg_size type)
    as (b & Hres & Hconn & Hops & _ & _ & _ & Hlog); try done.
  destruct Hres as [[Hr _]|[_ Hlt]]; [|lia].
  set (w1 := world_of (gb_connection_operation_recv data w)) in *.
  fold a g in Hconn, Hops, Hlog.
  assert (Ha1 : ops w1 !! a = Some (GbOperation 0 (Some g) None None 0 false))
    by (rewrite Hops; apply lookup_insert_eq).
  exists w1. eexists. eexists.
  split; [exact Hr|]. split.
  { unfold new_events. rewrite Hlog, drop_app_length.
    replace (msg_size <=? Z.of_nat (length data)) with true by lia.
    apply elem_of_app. right. right. by left. }
  split; [apply fresh_gmap_None|].
  split.
  { eapply recv_work_handled; [exact Ha1|done|done|].
    rewrite Hconn. simpl. exact Hh. }
  unfold new_events. simpl. rewrite drop_app_length, lookup_insert_eq.
  done.
Qed.

Lemma handled_request_runs_once_witness :
  exists w1 w2,
    gb_connection_operation_recv frame_request8 w_i2c = Ok tt w1 /\
    gb_operation_recv_work 0 w1 = Ok tt w2 /\
    new_events w1 w2 = [EvHandler 0; EvCompleteAll 0; EvFinished (Some 0%nat)].
Proof.
  destruct (handled_request_runs_once frame_request8 w_i2c 8 1
              gb_operation_recv_none)
    as (w1 & w2 & o & Hrun & _ & _ & Hwork & Hev & _).
  - vm_compute. discriminate.
  - reflexivity.
  - reflexivity.
  - reflexivity.
  - reflexivity.
  - reflexivity.
  - vm_compute. discriminate.
  - reflexivity.
  - exists w1, w2. split; [exact Hrun|]. split; [exact Hwork|exact Hev].
Defined.

(** * Identifier collision, allocation failure, framing of new buffers *)

(** The counter has wrapped onto the identifier of pending operation 0:
    inserting operation 1 does not return, with 1000 units of fuel as with
    any other amount. *)
Lemma gb_operation_insert_collision_witness :
  exists w', gb_operation_insert 1000 1 w_wrapped = Spin w'.
Proof.
  apply (gb_operation_insert_collision 1000 w_wrapped 1%nat
           (GbOperation 0 (Some 2%nat) (Some 3%nat) None 0 false) 2%nat
           (Gbuf ([24; 0; 0; 0; 1; 0; 0; 0] ++ replicate 16 0) 24 16 0 true 1)
           0%nat).
  - vm_compute. reflexivity.
  - reflexivity.
  - vm_compute. reflexivity.
  - simpl. lia.
  - simpl. rewrite list_elem_of_singleton. lia.
  - simpl. by apply list_elem_of_singleton.
  - unfold registry_ok, ordered. simpl. repeat constructor.
  - vm_compute. reflexivity.
Defined.

(** An incoming request for which the operation cannot be allocated is
    dropped: the failure is reported (after the warning, when the declared
    size differs from the length delivered), and the connection, the
    operations and the buffers are what they were. *)
Theorem request_dropped_without_memory `{Externals} data w msg_size type :
  Z.of_nat (length data) <= GB_OPERATION_MESSAGE_SIZE_MAX ->
  hdr_size data = Some msg_size -> hdr_type data = Some type ->
  Z.land type GB_OPERATION_TYPE_RESPONSE = 0 ->
  answer 0 w = false \/ answer 1 w = false ->
  exists w',
    gb_connection_operation_recv data w = Ok tt w' /\
    conn w' = conn w /\ ops w' = ops w /\ gbufs w' = gbufs w /\
    log w' =
      log w ++ (if msg_size =? Z.of_nat (length data) then [] else [EvWarn]) ++
      [EvErr "can't create operation"].
Proof.
  intros Hmax Hsz Hty Hbit Hfail.
  unfold gb_connection_operation_recv.
  replace (_ >? GB_OPERATION_MESSAGE_SIZE_MAX) with false by lia.
  rewrite Hsz, Hty. unfold bind at 1 2. simpl. rewrite Hbit. simpl.
  assert (Hcreate : forall w1, answer 0 w1 = answer 0 w -> answer 1 w1 = answer 1 w ->
    exists w2, gb_operation_create type msg_size 0 w1 = Ok None w2 /\
      conn w2 = conn w1 /\ ops w2 = ops w1 /\ gbufs w2 = gbufs w1 /\
      log w2 = log w1).
  { intros w1 E0 E1. destruct (answer 0 w) eqn:A0.
    - destruct Hfail as [?|A1]; [done|].
      rewrite gb_operation_create_no_request by congruence. by eexists.
    - rewrite gb_operation_create_no_object by congruence. by eexists. }
  destruct (msg_size =? Z.of_nat (length data)); simpl.
  - unfold bind at 1. simpl. unfold bind.
    destruct (Hcreate w) as (w2 & -> & Hc & Ho & Hg & Hl); [done|done|].
    eexists. split; [reflexivity|]. simpl. by rewrite Hc, Ho, Hg, Hl.
  - unfold bind at 1. simpl. unfold bind.
    destruct (Hcreate (World (conn w) (ops w) (gbufs w) (allocs w) (log w ++ [EvWarn])))
      as (w2 & -> & Hc & Ho & Hg & Hl); [done|done|].
    eexists. split; [reflexivity|]. simpl.
    rewrite Hc, Ho, Hg, Hl. simpl. by rewrite <- app_assoc.
Qed.

Lemma request_dropped_without_memory_witness :
  exists w',
    gb_connection_operation_recv frame_request8
      (World (conn w_idle) ∅ ∅ [true; false] []) = Ok tt w' /\
    ops w' = ∅ /\ gbufs w' = ∅ /\ operations (conn w') = [] /\
    log w' = [EvErr "can't create operation"].
Proof.
  destruct (request_dropped_without_memory frame_request8
              (World (conn w_idle) ∅ ∅ [true; false] []) 8 1)
    as (w' & Hrun & Hc & Ho & Hg & Hl).
  - vm_compute. discriminate.
  - reflexivity.
  - reflexivity.
  - reflexivity.
  - right. reflexivity.
  - exists w'. split; [exact Hrun|]. rewrite Hc, Ho, Hg, Hl. done.
Defined.

(** The two buffers of an outgoing operation as [gb_operation_create] frames
    them: the request header carries the type given and the response header
    the same type with the response bit set; both identifiers are zero;
    each size field is the payload size plus the header size (cut to 16
    bits); the request's used length is the request size. *)
Theorem create_frames_both_buffers type rq rs w :
  0 <= type < 256 ->
  0 <= rq -> rq + sizeof_hdr < 2 ^ 64 ->
  0 < rs -> rs + sizeof_hdr < 2 ^ 64 ->
  create_fails rs w = false ->
  exists a w' o gq gs bq bs,
    gb_operation_create type rq rs w = Ok (Some a) w' /\
    ops w' !! a = Some o /\
    request o = Some gq /\ response o = Some gs /\
    gbufs w' !! gq = Some bq /\ gbufs w' !! gs = Some bs /\
    hdr_type (transfer_buffer bq) = Some type /\
    hdr_type (transfer_buffer bs) = Some (Z.lor type GB_OPERATION_TYPE_RESPONSE) /\
    Z.land (Z.lor type GB_OPERATION_TYPE_RESPONSE) GB_OPERATION_TYPE_RESPONSE <> 0 /\
    hdr_id (transfer_buffer bq) = Some 0 /\ hdr_id (transfer_buffer bs) = Some 0 /\
    hdr_size (transfer_buffer bq) = Some (u16 (rq + sizeof_hdr)) /\
    hdr_size (transfer_buffer bs) = Some (u16 (rs + sizeof_hdr)) /\
    actual_length bq = rq /\ outbound bq = true /\ outbound bs = false /\
    callback o = None /\ id o = 0.
Proof.
  intros Hty Hrq Hrqmax Hrs Hrsmax Hfail. unfold create_fails in Hfail.
  apply orb_false_iff in Hfail as [Hfail H2].
  apply orb_false_iff in Hfail as [H0 H1].
  apply negb_false_iff in H0, H1.
  replace (rs =? 0) with false in H2 by lia. simpl in H2.
  apply negb_false_iff in H2.
  rewrite gb_operation_create_outgoing by (try done; lia).
  set (g := fresh (dom (gbufs w))).
  set (bq := with_actual_length _ _).
  set (g' := fresh (dom (<[g := bq]> (gbufs w)))).
  assert (Hg' : <[g := bq]> (gbufs w) !! g' = None) by apply fresh_gmap_None.
  assert (g' <> g) as Hne.
  { intros Heq. rewrite Heq, lookup_insert_eq in Hg'. discriminate. }
  assert (Hlor : 0 <= Z.lor type GB_OPERATION_TYPE_RESPONSE < 256).
  { unfold GB_OPERATION_TYPE_RESPONSE. split.
    - apply Z.lor_nonneg. lia.
    - change 256 with (2 ^ 8). apply Z.log2_lt_pow2.
      + assert (0 <= Z.lor type 128) by (apply Z.lor_nonneg; lia).
        assert (Z.lor type 128 <> 0).
        { intros Hz. apply Z.lor_eq_0_iff in Hz. lia. }
        lia.
      + rewrite Z.log2_lor by lia.
        assert (Z.log2 type < 8).
        { destruct (decide (type = 0)) as [->|]; [simpl; lia|].
          apply Z.log2_lt_pow2; lia. }
        change (Z.log2 128) with 7. lia. }
  assert (Hsize : forall op t n out,
    hdr_size (transfer_buffer (framed_gbuf op t n out)) = Some (u16 (n + sizeof_hdr))).
  { intros op t n out. pose proof (le16_roundtrip (n + sizeof_hdr)) as Hrt.
    unfold hdr_size, le16_at, framed_gbuf, cpu_to_le16 in *. simpl in *.
    by rewrite Hrt. }
  assert (Htype : forall op t n out, 0 <= t < 256 ->
    hdr_type (transfer_buffer (framed_gbuf op t n out)) = Some t).
  { intros op t n out Ht. unfold hdr_type, u8_at, framed_gbuf, u8. simpl.
    by rewrite !(Z.mod_small t 256) by lia. }
  eexists. eexists. eexists. exists g, g', bq. eexists.
  split; [reflexivity|]. simpl.
  split; [apply lookup_insert_eq|].
  split; [done|]. split; [done|].
  split; [rewrite lookup_insert_ne by done; apply lookup_insert_eq|].
  split; [apply lookup_insert_eq|].
  split_and!; try done.
  all: try exact (Htype (fresh (dom (ops w))) type rq true Hty).
  all: try exact (Hsize (fresh (dom (ops w))) type rq true).
  all: try (by apply Htype).
  all: try apply Hsize.
  rewrite Z.land_lor_distr_l. unfold GB_OPERATION_TYPE_RESPONSE.
  change (Z.land 128 128) with 128.
  intros Hz. apply Z.lor_eq_0_iff in Hz. lia.
Qed.

Lemma create_frames_both_buffers_witness :
  exists a w' o gs bs,
    gb_operation_create 1 16 16 w_idle = Ok (Some a) w' /\
    ops w' !! a = Some o /\ response o = Some gs /\
    gbufs w' !! gs = Some bs /\
    hdr_type (transfer_buffer bs) = Some 129.
Proof.
  destruct (create_frames_both_buffers 1 16 16 w_idle)
    as (a & w' & o & gq & gs & bq & bs & Hrun & Ho & _ & Hresp & _ & Hbs & _ & Hty & _).
  - lia.
  - lia.
  - vm_compute. reflexivity.
  - lia.
  - vm_compute. reflexivity.
  - reflexivity.
  - exists a, w', o, gs, bs. split; [exact Hrun|]. split; [exact Ho|].
    split; [exact Hresp|]. split; [exact Hbs|exact Hty].
Defined.

(** The first latency sample after a reset, within the first second: the
    minimum and the maximum are both the sample, the sum is the sample and
    the count is one. *)
Theorem loopback_first_latency_sample gb tlat :
  Loopback.elapsed_nsecs gb < Loopback.NSEC_PER_SEC ->
  let l' := Loopback.latency
              (Loopback.gb_loopback_latency_update
                 (Loopback.gb_loopback_reset_stats gb) tlat) in
  Loopback.min l' = Loopback.latency_sample tlat /\
  Loopback.max l' = Loopback.latency_sample tlat /\
  Loopback.sum l' = Loopback.latency_sample tlat /\
  Loopback.count l' = 1.
Proof.
  intros Hlt.
  assert (0 <= Loopback.latency_sample tlat < 2 ^ 32) as Hs
    by (unfold Loopback.latency_sample, Loopback.u32; apply Z.mod_pos_bound; lia).
  unfold Loopback.gb_loopback_latency_update, Loopback.gb_loopback_update_stats,
    Loopback.gb_loopback_reset_stats. simpl.
  replace (_ >=? _) with false by lia. simpl.
  set (lat := Loopback.latency_sample tlat) in *.
  unfold Loopback.u32. rewrite (Z.mod_small lat) by lia.
  destruct (4294967295 >? lat) eqn:Hmin, (0 <? lat) eqn:Hmax;
    split_and!; try reflexivity; lia.
Qed.

Lemma loopback_first_latency_sample_witness :
  let gb := Loopback.GbLoopback 1 0 0 (Loopback.Stats 2 9 0 20 3)
              (Loopback.Stats 0 0 0 0 0) (Loopback.Stats 0 0 0 0 0)
              (Loopback.Timeval 5 0) (Loopback.Timeval 0 0) 500 0 in
  Loopback.latency
    (Loopback.gb_loopback_latency_update
       (Loopback.gb_loopback_reset_stats gb) (Loopback.Timeval 0 4000)) =
  Loopback.Stats 4 4 0 4 1.
Proof.
  intros gb.
  destruct (loopback_first_latency_sample gb (Loopback.Timeval 0 4000))
    as (_ & _ & _ & _); [vm_compute; reflexivity|].
  reflexivity.
Defined.
